(** * Streaming decoder, chunk aggregation and agent routing

    A shallow embedding of
    - [frontend/chat_deployed.py]: [process_line] and the line loop of
      [get_stream];
    - [scout/graph.py]: [scout_node], [router], the edges added by
      [build_graph], and the generator [Agent.stream];
    - [scout/env.py]: the module body with its required-variable loop.

    Python values are modelled dynamically, as the code uses them: the
    payload of a data line is whatever [json.loads] returns, and every
    subscript, membership test, [.get] and truth test is written out with
    the exception Python raises when the operand has the wrong shape.

    A Python [str] is represented by its UTF-8 bytes.  The code only
    slices after an ASCII prefix it has just tested, so the byte offsets
    coincide with the code-point offsets of the source. *)

From Stdlib Require Import String Ascii List ZArith Bool Lia.
Import ListNotations.
Open Scope string_scope.
Set Warnings "-register-all".

(** ** Exceptions and fallible computations *)

Inductive exn : Type :=
| KeyError
| TypeError
| AttributeError
| ValueError
| IndexError
| UnboundLocalError
| JSONDecodeError
| GraphRecursionError.

Inductive result (A : Type) : Type :=
| Ok (a : A)
| Raise (e : exn).
Arguments Ok {A} a.
Arguments Raise {A} e.

Definition bind {A B : Type} (c : result A) (k : A -> result B) : result B :=
  match c with
  | Ok a => k a
  | Raise e => Raise e
  end.

Declare Scope py_scope.
Delimit Scope py_scope with py.
Notation "x <- c ;; k" := (bind c (fun x => k))
  (at level 61, c at next level, right associativity) : py_scope.
Notation "' p <- c ;; k" := (bind c (fun p => k))
  (at level 61, p pattern, c at next level, right associativity) : py_scope.
Open Scope py_scope.

(** ** Python values reachable from a JSON document

    [PFloat] carries the IEEE-754 binary64 bit pattern; the only float
    operation the code performs is the truth test. *)

Inductive pyval : Type :=
| PNone
| PBool (b : bool)
| PInt (n : Z)
| PFloat (bits : Z)
| PStr (s : string)
| PList (l : list pyval)
| PDict (d : list (string * pyval)).

Definition dict := list (string * pyval).

(** ** Strings *)

Definition nl : string := String "010"%char EmptyString.

(** [s.startswith(p)] *)
Fixpoint startswith (s p : string) {struct p} : bool :=
  match p with
  | EmptyString => true
  | String a p' =>
      match s with
      | EmptyString => false
      | String b s' => (a =? b)%char && startswith s' p'
      end
  end.

(** [s[n:]] for an offset that lies after an ASCII prefix *)
Fixpoint slice_from (n : nat) (s : string) : string :=
  match n, s with
  | O, _ => s
  | S _, EmptyString => EmptyString
  | S k, String _ r => slice_from k r
  end.

Definition is_continuation (c : ascii) : bool :=
  let n := nat_of_ascii c in (128 <=? n)%nat && (n <? 192)%nat.

Definition starts_with_continuation (s : string) : bool :=
  match s with
  | EmptyString => false
  | String c _ => is_continuation c
  end.

(** The code points of a string, each as its own one-character string. *)
Fixpoint code_points (s : string) : list string :=
  match s with
  | EmptyString => []
  | String c r =>
      match code_points r with
      | h :: t =>
          if starts_with_continuation r
          then String c h :: t
          else String c EmptyString :: h :: t
      | [] => [String c EmptyString]
      end
  end.

(** [str.isspace] on one code point, by its UTF-8 bytes:
    U+0009..000D, U+001C..0020, U+0085, U+00A0, U+1680, U+2000..200A,
    U+2028, U+2029, U+202F, U+205F, U+3000. *)
Definition isspace (ch : string) : bool :=
  match List.map nat_of_ascii (list_ascii_of_string ch) with
  | [a] => ((9 <=? a) && (a <=? 13) || (28 <=? a) && (a <=? 32))%nat
  | [194; b] => ((b =? 133) || (b =? 160))%nat
  | [225; 154; 128] => true
  | [226; 128; c] =>
      ((128 <=? c) && (c <=? 138) || (c =? 168) || (c =? 169) || (c =? 175))%nat
  | [226; 129; 159] => true
  | [227; 128; 128] => true
  | _ => false
  end.

Fixpoint lstrip_chars (l : list string) : list string :=
  match l with
  | ch :: r => if isspace ch then lstrip_chars r else l
  | [] => []
  end.

(** [s.strip()] *)
Definition strip (s : string) : string :=
  String.concat EmptyString
    (rev (lstrip_chars (rev (lstrip_chars (code_points s))))).

(** [needle in haystack] on two strings *)
Fixpoint str_contains (needle haystack : string) : bool :=
  startswith haystack needle ||
  match haystack with
  | EmptyString => false
  | String _ r => str_contains needle r
  end.

(** ** Dynamic operations *)

(** Truth value of an object, as tested by [if x:]. *)
Definition truthy (v : pyval) : bool :=
  match v with
  | PNone => false
  | PBool b => b
  | PInt n => negb (n =? 0)%Z
  | PFloat bits => negb (Z.land bits (2 ^ 63 - 1) =? 0)%Z
  | PStr s => negb (s =? EmptyString)%string
  | PList l => match l with [] => false | _ => true end
  | PDict d => match d with [] => false | _ => true end
  end.

(** [v == s] for a string literal [s] *)
Definition eq_str (v : pyval) (s : string) : bool :=
  match v with
  | PStr t => (t =? s)%string
  | _ => false
  end.

(** Lookup in a dict: the first binding of the key. *)
Fixpoint dict_lookup (k : string) (d : dict) : option pyval :=
  match d with
  | [] => None
  | (k', v) :: r => if (k' =? k)%string then Some v else dict_lookup k r
  end.

(** The keys of a dict in insertion order, each once. *)
Fixpoint dict_keys (d : dict) : list string :=
  match d with
  | [] => []
  | (k, _) :: r =>
      k :: filter (fun k' => negb (k' =? k)%string) (dict_keys r)
  end.

(** [a, b = v] *)
Definition unpack2 (v : pyval) : result (pyval * pyval) :=
  match v with
  | PNone | PBool _ | PInt _ | PFloat _ => Raise TypeError
  | PList [a; b] => Ok (a, b)
  | PList _ => Raise ValueError
  | PStr s =>
      match code_points s with
      | [a; b] => Ok (PStr a, PStr b)
      | _ => Raise ValueError
      end
  | PDict d =>
      match dict_keys d with
      | [a; b] => Ok (PStr a, PStr b)
      | _ => Raise ValueError
      end
  end.

(** [k in v] for a string literal [k] *)
Definition contains (k : string) (v : pyval) : result bool :=
  match v with
  | PDict d => Ok (match dict_lookup k d with Some _ => true | None => false end)
  | PList l => Ok (existsb (fun x => eq_str x k) l)
  | PStr s => Ok (str_contains k s)
  | PNone | PBool _ | PInt _ | PFloat _ => Raise TypeError
  end.

(** [v[k]] for a string literal [k] *)
Definition subscript (v : pyval) (k : string) : result pyval :=
  match v with
  | PDict d =>
      match dict_lookup k d with
      | Some x => Ok x
      | None => Raise KeyError
      end
  | _ => Raise TypeError
  end.

(** [d.get(k, default)] on a dict *)
Definition dict_get (d : dict) (k : string) (default : pyval) : pyval :=
  match dict_lookup k d with
  | Some x => x
  | None => default
  end.

(** [v.get(k, default)] on any object: only a dict has the method. *)
Definition get (v : pyval) (k : string) (default : pyval) : result pyval :=
  match v with
  | PDict d => Ok (dict_get d k default)
  | _ => Raise AttributeError
  end.

(** [v[0]] *)
Definition subscript0 (v : pyval) : result pyval :=
  match v with
  | PList (x :: _) => Ok x
  | PList [] => Raise IndexError
  | PStr s =>
      match code_points s with
      | ch :: _ => Ok (PStr ch)
      | [] => Raise IndexError
      end
  | PDict _ => Raise KeyError
  | PNone | PBool _ | PInt _ | PFloat _ => Raise TypeError
  end.

(** [s += v] for a string [s] *)
Definition iadd_str (s : string) (v : pyval) : result string :=
  match v with
  | PStr t => Ok (s ++ t)
  | _ => Raise TypeError
  end.

(** ** frontend/chat_deployed.py *)

Module chat_deployed.
Section Decoder.

(** [json.loads] belongs to the Python library: it is a parameter of the
  model.  So is [str()] of an object that is not itself a string,
  which the f-string of the tool-call header would call. *)
Variable json_loads : string -> result pyval.
Variable py_str : pyval -> string.

(** [f"{v}"] *)
Definition format_value (v : pyval) : string :=
match v with
| PStr s => s
| _ => py_str v
end.

(** [f"\n\n< TOOL CALL: {tool_name} >\n\n"] *)
Definition tool_call_header (tool_name : pyval) : string :=
nl ++ nl ++ "< TOOL CALL: " ++ format_value tool_name ++ " >" ++ nl ++ nl.

(** Lines 98-111 of [process_line]: the branch on [tool_call_chunks].
  [tool_call_str] is a local that is bound only by the two
  assignments; reading it unbound raises. *)
Definition emit_tool_or_content (message_chunk : pyval) : result pyval :=
tool_call_chunks <- subscript message_chunk "tool_call_chunks" ;;
if truthy tool_call_chunks then
  tool_chunk <- subscript0 tool_call_chunks ;;
  tool_name <- get tool_chunk "name" (PStr "") ;;
  args <- get tool_chunk "args" (PStr "") ;;
  let tool_call_str : option pyval := None in
  let tool_call_str :=
    if truthy tool_name
    then Some (PStr (tool_call_header tool_name))
    else tool_call_str in
  let tool_call_str :=
    if truthy args then Some args else tool_call_str in
  match tool_call_str with
  | Some v => Ok v
  | None => Raise UnboundLocalError
  end
else subscript message_chunk "content".

(** Lines 93-96: the finish-reason test; [true] when the function
  returns the paragraph break. *)
Definition finished_with_tool_calls (message_chunk : pyval) : result bool :=
response_metadata <- subscript message_chunk "response_metadata" ;;
if truthy response_metadata then
  finish_reason <- get response_metadata "finish_reason" (PStr "") ;;
  Ok (eq_str finish_reason "tool_calls")
else Ok false.

(** Line 92: ["type" in message_chunk and message_chunk["type"] == ...] *)
Definition is_ai_message_chunk (message_chunk : pyval) : result bool :=
has_type <- contains "type" message_chunk ;;
if has_type then
  ty <- subscript message_chunk "type" ;;
  Ok (eq_str ty "AIMessageChunk")
else Ok false.

(** [current_event == kind]; [current_event] is [None] until the first
  event line has been read. *)
Definition event_is (current_event : option string) (kind : string) : bool :=
match current_event with
| Some e => (e =? kind)%string
| None => false
end.

(** [process_line].  A function that falls off its end, or executes a
  bare [return], returns [None].  The handler of the [try] prints a
  diagnostic and re-raises, so exceptions pass through unchanged. *)
Definition process_line (line : string) (current_event : option string)
: result pyval :=
if startswith line "data: " then
  let data_content := slice_from 6 line in
  if event_is current_event "messages" then
    parsed <- json_loads data_content ;;
    '(message_chunk, metadata) <- unpack2 parsed ;;
    ai <- is_ai_message_chunk message_chunk ;;
    if ai then
      fin <- finished_with_tool_calls message_chunk ;;
      if fin then Ok (PStr (nl ++ nl))
      else emit_tool_or_content message_chunk
    else Ok PNone
  else if event_is current_event "metadata" then Ok PNone
  else Ok PNone
else Ok PNone.

(** The two locals of [get_stream] that the line loop updates. *)
Record stream_state : Type := mk_stream_state
{ full_content : string;
  current_event : option string }.

(** One iteration of [async for line in stream_response.aiter_lines()].
  The [print] of a unit writes the same text that is appended to
  [full_content]. *)
Definition get_stream_line (st : stream_state) (line : string)
: result stream_state :=
if negb (line =? "")%string then
  if startswith line "event: " then
    Ok (mk_stream_state (full_content st) (Some (strip (slice_from 7 line))))
  else
    message_chunk <- process_line line (current_event st) ;;
    if truthy message_chunk then
      content' <- iadd_str (full_content st) message_chunk ;;
      Ok (mk_stream_state content' (current_event st))
    else Ok st
else Ok st.

Fixpoint get_stream_lines (st : stream_state) (lines : list string)
: result stream_state :=
match lines with
| [] => Ok st
| line :: rest =>
    st' <- get_stream_line st line ;;
    get_stream_lines st' rest
end.

(** [get_stream], as a function of the lines the response delivers. *)
Definition get_stream (lines : list string) : result string :=
st <- get_stream_lines (mk_stream_state "" None) lines ;;
Ok (full_content st).

End Decoder.
End chat_deployed.

(** ** scout/graph.py *)

Module graph.

(** *** [Agent.stream]

    The generator receives message objects, not JSON text.  Of an
    [AIMessageChunk] it reads three attributes, whose types the message
    class fixes: [response_metadata] is a dict, [tool_call_chunks] a list
    of dicts, [content] a string or a list. *)

Record AIMessageChunk : Type := mk_chunk
  { content : pyval;
    tool_call_chunks : list dict;
    response_metadata : dict }.

(** What [runnable.stream] hands over: an [AIMessageChunk], or a message
    of another class, for which [isinstance] is false. *)
Inductive streamed : Type :=
| AIChunk (c : AIMessageChunk)
| OtherMessage.

Section Stream.

Variable py_str : pyval -> string.

(** One iteration of the [for] loop: the values yielded, in order,
    and the binding of the local [tool_call_str] afterwards, or the
    exception that ends the generator.  [tool_call_str] is a local of
    the generator, so a binding made by one iteration is still there
    in the next. *)
Definition stream_iteration (tool_call_str : option pyval) (m : streamed)
  : list pyval * result (option pyval) :=
  match m with
  | AIChunk message_chunk =>
      let finish :=
        if truthy (PDict (response_metadata message_chunk)) then
          let finish_reason :=
            dict_get (response_metadata message_chunk) "finish_reason" (PStr "") in
          if eq_str finish_reason "tool_calls" then [PStr (nl ++ nl)] else []
        else [] in
      match tool_call_chunks message_chunk with
      | tool_chunk :: _ =>
          let tool_name := dict_get tool_chunk "name" (PStr "") in
          let args := dict_get tool_chunk "args" (PStr "") in
          let tool_call_str :=
            if truthy tool_name
            then Some (PStr (chat_deployed.tool_call_header py_str tool_name))
            else tool_call_str in
          let tool_call_str :=
            if truthy args then Some args else tool_call_str in
          match tool_call_str with
          | Some v => ((finish ++ [v])%list, Ok tool_call_str)
          | None => (finish, Raise UnboundLocalError)
          end
      | [] => ((finish ++ [content message_chunk])%list, Ok tool_call_str)
      end
  | OtherMessage => ([], Ok tool_call_str)
  end.

Fixpoint stream_from (tool_call_str : option pyval) (ms : list streamed)
  : list pyval * option exn :=
  match ms with
  | [] => ([], None)
  | m :: rest =>
      match stream_iteration tool_call_str m with
      | (ys, Ok tool_call_str') =>
          let '(ys', e) := stream_from tool_call_str' rest in
          ((ys ++ ys')%list, e)
      | (ys, Raise e) => (ys, Some e)
      end
  end.

(** [Agent.stream], as a function of what the graph run streams: the
    values it yields and the exception that ends it, if any. *)
Definition stream (ms : list streamed) : list pyval * option exn :=
  stream_from None ms.

End Stream.

(** *** The graph of [build_graph] *)

Record ToolCall : Type := mk_tool_call
  { tc_name : string;
    tc_args : pyval;
    tc_id : string }.

(** The message classes.  Only an [AIMessage] has the attribute
    [tool_calls]. *)
Inductive BaseMessage : Type :=
| SystemMessage (content : string)
| HumanMessage (content : string)
| AIMessage (content : string) (tool_calls : list ToolCall)
| ToolMessage (content : string) (tool_call_id : string).

Record ScoutState : Type := mk_state
  { messages : list BaseMessage;
    chart_json : string }.

(** [m.tool_calls] *)
Definition tool_calls_of (m : BaseMessage) : result (list ToolCall) :=
  match m with
  | AIMessage _ tcs => Ok tcs
  | _ => Raise AttributeError
  end.

(** [l[-1]] *)
Definition last_item {A : Type} (l : list A) : result A :=
  match rev l with
  | x :: _ => Ok x
  | [] => Raise IndexError
  end.

Inductive node : Type := START | chatbot | tools | END.

(** [router] *)
Definition router (state : ScoutState) : result node :=
  last_message <- last_item (messages state) ;;
  tcs <- tool_calls_of last_message ;;
  if negb (match tcs with [] => false | _ => true end)
  then Ok END
  else Ok tools.

Section Graph.

(** The bound chat model and the prebuilt tool node are supplied by
    the libraries. *)
Variable system_prompt : string.
Variable llm_invoke : list BaseMessage -> result BaseMessage.
Variable tool_node : ScoutState -> result ScoutState.

(** [scout_node] *)
Definition scout_node (state : ScoutState) : result ScoutState :=
  response <- llm_invoke ([SystemMessage system_prompt] ++ messages state)%list ;;
  Ok (mk_state (messages state ++ [response])%list (chart_json state)).

(** The edges: [START -> chatbot], the conditional edge out of
    [chatbot] decided by [router], and [tools -> chatbot].  A step
    runs the node it leaves. *)
Definition step (n : node) (state : ScoutState) : result (node * ScoutState) :=
  match n with
  | START => Ok (chatbot, state)
  | chatbot =>
      state' <- scout_node state ;;
      next <- router state' ;;
      Ok (next, state')
  | tools =>
      state' <- tool_node state ;;
      Ok (chatbot, state')
  | END => Ok (END, state)
  end.

(** A run of the compiled graph: the nodes entered and the state it
    stops in.  The run is over when it enters [END].  [hops] bounds the
    steps as the recursion limit of the compiled graph bounds its
    super-steps (the edge out of [START] is counted here as a step): a
    run that has steps left to take when the bound is used up raises
    [GraphRecursionError]. *)
Fixpoint run (hops : nat) (n : node) (state : ScoutState)
  : result (list node * ScoutState) :=
  match n, hops with
  | END, _ => Ok ([END], state)
  | _, O => Raise GraphRecursionError
  | _, S k =>
      '(n', state') <- step n state ;;
      '(visited, final) <- run k n' state' ;;
      Ok (n :: visited, final)
  end.

End Graph.

End graph.

(** ** scout/env.py *)

Module env.
Section Module_body.

(** [os.environ] after [load_dotenv()], and [float()] on a string. *)
Variable environ : string -> option string.
Variable py_float : string -> result Z.

(** [os.getenv(key, default)] *)
Definition getenv (key : string) (default : option string) : option string :=
match environ key with
| Some v => Some v
| None => default
end.

Record settings : Type := mk_settings
{ SUPABASE_URL : option string;
  GROQ_API_KEY : option string;
  GROQ_MODEL : option string;
  GROQ_TEMPERATURE : Z;
  LANGSMITH_API_KEY : option string;
  REDIS_URI : option string;
  DATABASE_URI : option string }.

Definition required_env_vars : list string :=
["SUPABASE_URL"; "GROQ_API_KEY"].

(** [for var in vars: if not var: raise ValueError(...)] *)
Fixpoint check_required (vars : list string) : result unit :=
match vars with
| [] => Ok tt
| var :: rest =>
    if negb (truthy (PStr var)) then Raise ValueError
    else check_required rest
end.

(** The module body, top to bottom. *)
Definition import_module : result settings :=
let supabase_url := getenv "SUPABASE_URL" None in
let groq_api_key := getenv "GROQ_API_KEY" None in
let groq_model :=
  getenv "GROQ_MODEL" (Some "meta-llama/llama-4-scout-17b-16e-instruct") in
temperature <-
  match getenv "GROQ_TEMPERATURE" (Some "0.0") with
  | Some s => py_float s
  | None => Raise TypeError
  end ;;
let langsmith_api_key := getenv "LANGSMITH_API_KEY" None in
let redis_uri := getenv "REDIS_URI" None in
let database_uri := getenv "DATABASE_URI" None in
_ <- check_required required_env_vars ;;
Ok (mk_settings supabase_url groq_api_key groq_model temperature
      langsmith_api_key redis_uri database_uri).

End Module_body.
End env.

(** ** A reference decoder for JSON text

    [json.loads] is a parameter of the decoder above.  To run the decoder
    on concrete lines, this module supplies an instance for the part of
    JSON the wire protocol of the examples uses: objects, arrays, strings
    with the one-letter escapes, integers, [true], [false], [null].  It
    raises on text outside that part (fractions, exponents, [\u]
    escapes); the statements below rely on a raise of this instance only
    for text that is not JSON at all. *)

Module json_text.

Definition dquote : ascii := ascii_of_nat 34.
Definition backslash : ascii := ascii_of_nat 92.

(** Writes a JSON text with apostrophes where the text has double
    quotes, so that examples stay readable. *)
Fixpoint q (s : string) : string :=
  match s with
  | EmptyString => EmptyString
  | String c r => String (if (c =? "'")%char then dquote else c) (q r)
  end.

Definition is_ws (c : ascii) : bool :=
  let n := nat_of_ascii c in
  ((n =? 32) || (n =? 9) || (n =? 10) || (n =? 13))%nat.

Fixpoint skip_ws (s : string) : string :=
  match s with
  | String c r => if is_ws c then skip_ws r else s
  | EmptyString => s
  end.

Definition digit (c : ascii) : option Z :=
  let n := nat_of_ascii c in
  if ((48 <=? n) && (n <=? 57))%nat then Some (Z.of_nat (n - 48)) else None.

Definition unescape (c : ascii) : option ascii :=
  if (c =? dquote)%char then Some dquote
  else if (c =? backslash)%char then Some backslash
  else if (c =? "/")%char then Some "/"%char
  else if (c =? "b")%char then Some (ascii_of_nat 8)
  else if (c =? "f")%char then Some (ascii_of_nat 12)
  else if (c =? "n")%char then Some (ascii_of_nat 10)
  else if (c =? "r")%char then Some (ascii_of_nat 13)
  else if (c =? "t")%char then Some (ascii_of_nat 9)
  else None.

(** The characters of a string after its opening quote, up to the
    closing one. *)
Fixpoint string_body (s : string) : option (string * string) :=
  match s with
  | EmptyString => None
  | String c r =>
      if (c =? dquote)%char then Some (EmptyString, r)
      else if (c =? backslash)%char then
        match r with
        | String e r' =>
            match unescape e, string_body r' with
            | Some x, Some (body, rest) => Some (String x body, rest)
            | _, _ => None
            end
        | EmptyString => None
        end
      else if (nat_of_ascii c <? 32)%nat then None
      else
        match string_body r with
        | Some (body, rest) => Some (String c body, rest)
        | None => None
        end
  end.

Fixpoint digits (acc : Z) (s : string) : Z * string :=
  match s with
  | String c r =>
      match digit c with
      | Some d => digits (10 * acc + d) r
      | None => (acc, s)
      end
  | EmptyString => (acc, s)
  end.

Definition starts_fraction_or_exponent (s : string) : bool :=
  match s with
  | String c _ => ((c =? ".")%char || (c =? "e")%char || (c =? "E")%char)
  | EmptyString => false
  end.

(** An integer without sign: [0], or a digit [1..9] and more digits. *)
Definition natural (s : string) : option (Z * string) :=
  match s with
  | String c r =>
      match digit c with
      | Some 0%Z => if starts_fraction_or_exponent r then None else Some (0%Z, r)
      | Some d =>
          let '(n, rest) := digits d r in
          if starts_fraction_or_exponent rest then None else Some (n, rest)
      | None => None
      end
  | EmptyString => None
  end.

(** A dict assignment [d[k] = v]: a key that is present keeps its place. *)
Fixpoint dict_set (k : string) (v : pyval) (d : dict) : dict :=
  match d with
  | [] => [(k, v)]
  | (k', v') :: r =>
      if (k' =? k)%string then (k, v) :: r else (k', v') :: dict_set k v r
  end.

Definition after_literal (lit : string) (v : pyval) (s : string)
  : option (pyval * string) :=
  if startswith s lit then Some (v, slice_from (String.length lit) s)
  else None.

(** [value] reads one value at the head of the text; [items] the rest of
    an array after its bracket or a comma; [members] the rest of an
    object after its brace or a comma. *)
Fixpoint value (fuel : nat) (s : string) : option (pyval * string) :=
  match fuel with
  | O => None
  | S fuel' =>
      match s with
      | EmptyString => None
      | String c r =>
          if (c =? "[")%char then
            match skip_ws r with
            | String "]" r' => Some (PList [], r')
            | r' =>
                match items fuel' r' with
                | Some (l, rest) => Some (PList l, rest)
                | None => None
                end
            end
          else if (c =? "{")%char then
            match skip_ws r with
            | String "}" r' => Some (PDict [], r')
            | r' =>
                match members fuel' [] r' with
                | Some (d, rest) => Some (PDict d, rest)
                | None => None
                end
            end
          else if (c =? dquote)%char then
            match string_body r with
            | Some (body, rest) => Some (PStr body, rest)
            | None => None
            end
          else if (c =? "-")%char then
            match natural r with
            | Some (n, rest) => Some (PInt (- n), rest)
            | None => None
            end
          else if (c =? "t")%char then after_literal "true" (PBool true) s
          else if (c =? "f")%char then after_literal "false" (PBool false) s
          else if (c =? "n")%char then after_literal "null" PNone s
          else
            match natural s with
            | Some (n, rest) => Some (PInt n, rest)
            | None => None
            end
      end
  end
with items (fuel : nat) (s : string) : option (list pyval * string) :=
  match fuel with
  | O => None
  | S fuel' =>
      match value fuel' s with
      | Some (v, rest) =>
          match skip_ws rest with
          | String "]" r => Some ([v], r)
          | String "," r =>
              match items fuel' (skip_ws r) with
              | Some (l, rest') => Some (v :: l, rest')
              | None => None
              end
          | _ => None
          end
      | None => None
      end
  end
with members (fuel : nat) (acc : dict) (s : string) : option (dict * string) :=
  match fuel with
  | O => None
  | S fuel' =>
      match s with
      | String c r =>
          if (c =? dquote)%char then
            match string_body r with
            | Some (key, rest) =>
                match skip_ws rest with
                | String ":" r1 =>
                    match value fuel' (skip_ws r1) with
                    | Some (v, rest') =>
                        let acc' := dict_set key v acc in
                        match skip_ws rest' with
                        | String "}" r2 => Some (acc', r2)
                        | String "," r2 => members fuel' acc' (skip_ws r2)
                        | _ => None
                        end
                    | None => None
                    end
                | _ => None
                end
            | None => None
            end
          else None
      | EmptyString => None
      end
  end.

(** A whole document: one value, blanks around it, nothing after. *)
Definition loads (s : string) : result pyval :=
  match value (2 * String.length s + 2) (skip_ws s) with
  | Some (v, rest) =>
      match skip_ws rest with
      | EmptyString => Ok v
      | _ => Raise JSONDecodeError
      end
  | None => Raise JSONDecodeError
  end.

(** [str()] is not reached by the examples, whose tool names are
    strings; the instance passed for it is this one. *)
Definition no_str (_ : pyval) : string := EmptyString.

End json_text.

(** ** Vocabulary of the statements *)

Module wire.
Section Wire.

Variable json_loads : string -> result pyval.

(** [line] is a data line whose payload decodes to the two-element list
  [[chunk, metadata]] with [chunk] an object. *)
Definition carries (line : string) (chunk : dict) : Prop :=
exists payload metadata,
  line = "data: " ++ payload /\
  json_loads payload = Ok (PList [PDict chunk; metadata]).

(** The object is tagged as a partial assistant message. *)
Definition is_message_chunk (chunk : dict) : Prop :=
dict_lookup "type" chunk = Some (PStr "AIMessageChunk").

(** The finish reason of the chunk is [reason]. *)
Definition finish_reason_is (chunk : dict) (reason : string) : Prop :=
exists rm,
  dict_lookup "response_metadata" chunk = Some (PDict rm) /\
  dict_lookup "finish_reason" rm = Some (PStr reason).

(** The chunk has response metadata, and no finish reason in it. *)
Definition no_finish_reason (chunk : dict) : Prop :=
exists rm,
  dict_lookup "response_metadata" chunk = Some (PDict rm) /\
  dict_lookup "finish_reason" rm = None.

(** The first tool-call fragment of the chunk is the object [fragment]. *)
Definition first_fragment (chunk : dict) (fragment : dict) : Prop :=
exists others,
  dict_lookup "tool_call_chunks" chunk = Some (PList (PDict fragment :: others)).

(** The chunk has response metadata, and its finish reason is not
  [tool_calls]: the metadata tests false, or it is an object whose
  [finish_reason] is absent or another value ([stop], for one). *)
Definition not_finished_by_tool_calls (chunk : dict) : Prop :=
exists rm,
  dict_lookup "response_metadata" chunk = Some rm /\
  (truthy rm = false \/
   exists d, rm = PDict d /\
     eq_str (dict_get d "finish_reason" (PStr "")) "tool_calls" = false).

(** A line of a messages event that carries the non-empty argument
  fragment [a] on a chunk whose finish reason is not [tool_calls]. *)
Definition argument_line (line : string) (a : string) : Prop :=
exists chunk fragment,
  carries line chunk /\ is_message_chunk chunk /\
  not_finished_by_tool_calls chunk /\ first_fragment chunk fragment /\
  dict_lookup "args" fragment = Some (PStr a) /\
  a <> EmptyString.

End Wire.
End wire.

(** ** Lines and chunks used as concrete inputs

    The lines are written with [json_text.q]: an apostrophe stands for a
    double quote of the JSON text. *)

Module examples.
Import json_text.

(** A plain content chunk. *)
Definition hi_line : string :=
  q "data: [{'type':'AIMessageChunk','content':'Hi','tool_call_chunks':[],'response_metadata':{}}, {}]".
Definition hi_chunk : dict :=
  [("type", PStr "AIMessageChunk"); ("content", PStr "Hi");
   ("tool_call_chunks", PList []); ("response_metadata", PDict [])].

(** A first fragment with a name and empty argument text. *)
Definition name_fragment : dict :=
  [("index", PInt 0); ("name", PStr "query_db"); ("args", PStr "")].
Definition name_line : string :=
  q "data: [{'type':'AIMessageChunk','content':'','tool_call_chunks':[{'index':0,'name':'query_db','args':''}],'response_metadata':{}}, {}]".
Definition name_chunk : dict :=
  [("type", PStr "AIMessageChunk"); ("content", PStr "");
   ("tool_call_chunks", PList [PDict name_fragment]);
   ("response_metadata", PDict [])].

(** A following fragment with argument text only. *)
Definition args_text : string := q "{'q':1}".
Definition args_fragment : dict :=
  [("index", PInt 0); ("args", PStr args_text)].
Definition args_line : string :=
  q "data: [{'type':'AIMessageChunk','content':'','tool_call_chunks':[{'index':0,'args':'{\'q\':1}'}],'response_metadata':{}}, {}]".
Definition args_chunk : dict :=
  [("type", PStr "AIMessageChunk"); ("content", PStr "");
   ("tool_call_chunks", PList [PDict args_fragment]);
   ("response_metadata", PDict [])].

(** The same argument text in two pieces. *)
Definition args_head : string := q "{'q'".
Definition args_tail : string := ":1}".
Definition args_head_fragment : dict :=
  [("index", PInt 0); ("args", PStr args_head)].
Definition args_tail_fragment : dict :=
  [("index", PInt 0); ("args", PStr args_tail)].
Definition args_head_line : string :=
  q "data: [{'type':'AIMessageChunk','content':'','tool_call_chunks':[{'index':0,'args':'{\'q\''}],'response_metadata':{}}, {}]".
Definition args_tail_line : string :=
  q "data: [{'type':'AIMessageChunk','content':'','tool_call_chunks':[{'index':0,'args':':1}'}],'response_metadata':{}}, {}]".
Definition args_head_chunk : dict :=
  [("type", PStr "AIMessageChunk"); ("content", PStr "");
   ("tool_call_chunks", PList [PDict args_head_fragment]);
   ("response_metadata", PDict [])].
Definition args_tail_chunk : dict :=
  [("type", PStr "AIMessageChunk"); ("content", PStr "");
   ("tool_call_chunks", PList [PDict args_tail_fragment]);
   ("response_metadata", PDict [])].

(** A first fragment with a name and the whole argument text. *)
Definition both_fragment : dict :=
  [("index", PInt 0); ("name", PStr "query_db"); ("args", PStr args_text)].
Definition both_line : string :=
  q "data: [{'type':'AIMessageChunk','content':'','tool_call_chunks':[{'index':0,'name':'query_db','args':'{\'q\':1}'}],'response_metadata':{}}, {}]".
Definition both_chunk : dict :=
  [("type", PStr "AIMessageChunk"); ("content", PStr "");
   ("tool_call_chunks", PList [PDict both_fragment]);
   ("response_metadata", PDict [])].

(** A first fragment with an index and nothing else. *)
Definition bare_fragment : dict := [("index", PInt 0)].
Definition bare_line : string :=
  q "data: [{'type':'AIMessageChunk','content':'','tool_call_chunks':[{'index':0}],'response_metadata':{}}, {}]".
Definition bare_chunk : dict :=
  [("type", PStr "AIMessageChunk"); ("content", PStr "");
   ("tool_call_chunks", PList [PDict bare_fragment]);
   ("response_metadata", PDict [])].

(** A chunk that closes a turn of tool calls, with text in it. *)
Definition finish_line : string :=
  q "data: [{'type':'AIMessageChunk','content':'x','tool_call_chunks':[],'response_metadata':{'finish_reason':'tool_calls'}}, {}]".
Definition finish_chunk : dict :=
  [("type", PStr "AIMessageChunk"); ("content", PStr "x");
   ("tool_call_chunks", PList []);
   ("response_metadata", PDict [("finish_reason", PStr "tool_calls")])].
(** The same chunk as the object [Agent.stream] receives. *)
Definition finish_object : graph.AIMessageChunk :=
  graph.mk_chunk (PStr "x") [] [("finish_reason", PStr "tool_calls")].

(** A streamed human message. *)
Definition human_line : string :=
  q "data: [{'type':'human','content':'hello'}, {}]".
Definition human_chunk : dict :=
  [("type", PStr "human"); ("content", PStr "hello")].

(** A payload of a metadata event. *)
Definition metadata_line : string :=
  q "data: {'run_id':'1f0'}".

(** A model that answers without tool calls, and a tool node that is
    never reached. *)
Definition quiet_llm (_ : list graph.BaseMessage) : result graph.BaseMessage :=
  Ok (graph.AIMessage "hello" []).
Definition idle_tool_node (state : graph.ScoutState) : result graph.ScoutState :=
  Ok state.
Definition greeting : graph.ScoutState :=
  graph.mk_state [graph.HumanMessage "hi"] "".

(** An environment with no variable set, and a [float] that succeeds. *)
Definition empty_environ (_ : string) : option string := None.
Definition zero_float (_ : string) : result Z := Ok 0%Z.

End examples.

(** ** scout/graph.py: the chat model

    [get_groq_chat_model] reads three module constants of [scout/env.py]
    and the module-level flag [_groq_config_logged]; the flag and the
    lines printed are threaded through explicitly. *)

Module chat_model.
Section Chat_model.

(** [str()] of a float, for the f-string of the temperature. *)
Variable float_str : Z -> string.

(** The keyword arguments handed to the [ChatGroq] constructor.
    [timeout] is a float, kept as its binary64 pattern. *)
Record ChatGroq : Type := mk_chat_groq
  { model : option string;
    temperature : Z;
    api_key : string;
    streaming : bool;
    timeout : Z }.

(** The float [30.0]: exponent 4, significand 1.875. *)
Definition thirty : Z := 0x403E000000000000.

(** U+1F527 and a blank, the head of the first line printed. *)
Definition wrench : string :=
  String (ascii_of_nat 240) (String (ascii_of_nat 159)
    (String (ascii_of_nat 148) (String (ascii_of_nat 167) " "))).

(** [s[:n]], counted in code points *)
Definition slice_to (n : nat) (s : string) : string :=
  String.concat "" (firstn n (code_points s)).

(** [f"{v}"] for an optional string *)
Definition format_optional (v : option string) : string :=
  match v with
  | Some s => s
  | None => "None"
  end.

(** The four [print] calls of the first successful call. *)
Definition config_lines (model : option string) (api_key : string)
  (temperature : Z) : list string :=
  let masked_key :=
    if truthy (PStr api_key) then slice_to 4 api_key ++ "..." else "<missing>" in
  [ wrench ++ "Groq Model Config:";
    "   Model: " ++ format_optional model;
    "   API Key: " ++ masked_key;
    "   Temperature: " ++ float_str temperature ].

(** [get_groq_chat_model]: the constructor arguments, the flag after the
    call, and the lines printed by the call. *)
Definition get_groq_chat_model (settings : env.settings) (logged : bool)
  : result (ChatGroq * bool * list string) :=
  let api_key := env.GROQ_API_KEY settings in
  let model := env.GROQ_MODEL settings in
  let temperature := env.GROQ_TEMPERATURE settings in
  match api_key with
  | None => Raise ValueError
  | Some key =>
      if negb (truthy (PStr key)) then Raise ValueError
      else
        let '(logged', printed) :=
          if negb logged
          then (true, config_lines model key temperature)
          else (logged, []) in
        Ok (mk_chat_groq model temperature key false thirty, logged', printed)
  end.

(** Successive calls, the flag carried from one to the next: the
    arguments of the last call and everything printed. *)
Fixpoint get_groq_chat_model_times (n : nat) (settings : env.settings)
  (logged : bool) : result (list ChatGroq * bool * list string) :=
  match n with
  | O => Ok ([], logged, [])
  | S k =>
      '(cfg, logged', printed) <- get_groq_chat_model settings logged ;;
      '(cfgs, logged'', printed') <- get_groq_chat_model_times k settings logged' ;;
      Ok (cfg :: cfgs, logged'', (printed ++ printed')%list)
  end.

End Chat_model.
End chat_model.

(** ** Vocabulary for the items of [Agent.stream] *)

Module stream_items.
Import graph.

(** A chunk or message that takes the content branch and carries no
    finish marker. *)
Definition plain_item (m : streamed) : Prop :=
  match m with
  | OtherMessage => True
  | AIChunk c =>
      tool_call_chunks c = [] /\
      eq_str (dict_get (response_metadata c) "finish_reason" (PStr ""))
             "tool_calls" = false
  end.

(** What such an item contributes: the content of a chunk, nothing for
    a message of another class. *)
Definition content_of (m : streamed) : list pyval :=
  match m with
  | OtherMessage => []
  | AIChunk c => [content c]
  end.

End stream_items.

(** ** Vocabulary for ASCII text *)

Module ascii_text.

(** Every character of the string is below U+0080. *)
Definition is_ascii (s : string) : bool :=
  forallb (fun c => (nat_of_ascii c <? 128)%nat) (list_ascii_of_string s).

(** [str.isspace] on an ASCII character. *)
Definition is_blank (c : ascii) : bool :=
  isspace (String c EmptyString).

(** [n] blanks. *)
Fixpoint blanks (n : nat) : string :=
  match n with
  | O => EmptyString
  | S k => String " " (blanks k)
  end.

(** A character as a one-character string. *)
Definition single (c : ascii) : string := String c EmptyString.

(** The characters left after the leading blanks. *)
Fixpoint drop_blanks (l : list ascii) : list ascii :=
  match l with
  | c :: r => if is_blank c then drop_blanks r else l
  | [] => []
  end.

(** The string is not empty and neither begins nor ends with a blank. *)
Definition no_blank_ends (s : string) : bool :=
  match list_ascii_of_string s with
  | [] => false
  | c :: rest => negb (is_blank c) && negb (is_blank (List.last rest c))
  end.

End ascii_text.

(** ** More concrete inputs *)

Module more_examples.
Import json_text.

(** A line with the field name but no blank after the colon. *)
Definition tight_line : string :=
  q "data:[{'type':'AIMessageChunk','content':'Hi','tool_call_chunks':[],'response_metadata':{}}, {}]".

(** A payload cut off in the middle. *)
Definition broken_payload : string := q "[{'type':'AIMessageChunk','content':'H".

(** A payload with three elements, and its value. *)
Definition triple_payload : string := "[1, 2, 3]".
Definition triple : list pyval := [PInt 1; PInt 2; PInt 3].

(** A tagged chunk with nothing but its content. *)
Definition lean_line : string :=
  q "data: [{'type':'AIMessageChunk','content':'Hi'}, {}]".
Definition lean_chunk : dict :=
  [("type", PStr "AIMessageChunk"); ("content", PStr "Hi")].

(** A chunk whose content is a list of content blocks. *)
Definition blocks : pyval :=
  PList [PDict [("type", PStr "text"); ("text", PStr "Hi")]].
Definition blocks_line : string :=
  q "data: [{'type':'AIMessageChunk','content':[{'type':'text','text':'Hi'}],'tool_call_chunks':[],'response_metadata':{}}, {}]".
Definition blocks_chunk : dict :=
  [("type", PStr "AIMessageChunk"); ("content", blocks);
   ("tool_call_chunks", PList []); ("response_metadata", PDict [])].

(** The second piece of the argument text on a chunk that closes the
    answer with [stop], and on one that closes it with [tool_calls]. *)
Definition tail_stop_line : string :=
  q "data: [{'type':'AIMessageChunk','content':'','tool_call_chunks':[{'index':0,'args':':1}'}],'response_metadata':{'finish_reason':'stop'}}, {}]".
Definition tail_stop_chunk : dict :=
  [("type", PStr "AIMessageChunk"); ("content", PStr "");
   ("tool_call_chunks", PList [PDict examples.args_tail_fragment]);
   ("response_metadata", PDict [("finish_reason", PStr "stop")])].
Definition tail_finish_line : string :=
  q "data: [{'type':'AIMessageChunk','content':'','tool_call_chunks':[{'index':0,'args':':1}'}],'response_metadata':{'finish_reason':'tool_calls'}}, {}]".
Definition tail_finish_chunk : dict :=
  [("type", PStr "AIMessageChunk"); ("content", PStr "");
   ("tool_call_chunks", PList [PDict examples.args_tail_fragment]);
   ("response_metadata", PDict [("finish_reason", PStr "tool_calls")])].

(** Chunk objects as [Agent.stream] receives them. *)
Definition name_object : graph.AIMessageChunk :=
  graph.mk_chunk (PStr "") [examples.name_fragment] [].
Definition bare_object : graph.AIMessageChunk :=
  graph.mk_chunk (PStr "") [examples.bare_fragment] [].
Definition hi_object : graph.AIMessageChunk :=
  graph.mk_chunk (PStr "Hi") [] [].
Definition there_object : graph.AIMessageChunk :=
  graph.mk_chunk (PStr " there") [] [("model_name", PStr "scout")].

(** A model that asks for a tool in every answer. *)
Definition lookup_call : graph.ToolCall :=
  graph.mk_tool_call "query_db" (PDict [("q", PInt 1)]) "call_1".
Definition eager_llm (_ : list graph.BaseMessage) : result graph.BaseMessage :=
  Ok (graph.AIMessage "" [lookup_call]).

(** A model that asks for a tool until it sees a tool result, and a tool
    node that appends one result. *)
Definition is_tool_message (m : graph.BaseMessage) : bool :=
  match m with
  | graph.ToolMessage _ _ => true
  | _ => false
  end.
Definition careful_llm (ms : list graph.BaseMessage) : result graph.BaseMessage :=
  if existsb is_tool_message ms
  then Ok (graph.AIMessage "one row" [])
  else Ok (graph.AIMessage "" [lookup_call]).
Definition answering_tool_node (state : graph.ScoutState)
  : result graph.ScoutState :=
  Ok (graph.mk_state
        (graph.messages state ++ [graph.ToolMessage "1" "call_1"])%list
        (graph.chart_json state)).

(** Module constants with and without a key. *)
Definition keyed : env.settings :=
  env.mk_settings (Some "https://db.example") (Some "gsk_abcdef")
    (Some "meta-llama/llama-4-scout-17b-16e-instruct") 0 None None None.
Definition keyless : env.settings :=
  env.mk_settings None None
    (Some "meta-llama/llama-4-scout-17b-16e-instruct") 0 None None None.

(** An environment that sets the key and nothing else. *)
Definition key_environ (name : string) : option string :=
  if (name =? "GROQ_API_KEY")%string then Some "gsk_abcdef" else None.

(** [str()] of the float zero. *)
Definition zero_str (_ : Z) : string := "0.0".

End more_examples.

(** * Properties *)

(** ** Small facts about the dynamic operations *)

Lemma eq_str_true (v : pyval) (s : string) :
  eq_str v s = true <-> v = PStr s.
Proof.
  destruct v; simpl; split; intro H; try discriminate.
  - apply String.eqb_eq in H. now subst.
  - injection H as ->. apply String.eqb_refl.
Qed.

Lemma eq_str_refl (s : string) : eq_str (PStr s) s = true.
Proof. now apply eq_str_true. Qed.

Lemma truthy_str (s : string) :
  truthy (PStr s) = true <-> s <> EmptyString.
Proof.
  simpl. destruct s; simpl; split; intro H; congruence.
Qed.

Lemma data_prefix (payload : string) :
  startswith ("data: " ++ payload) "data: " = true /\
  slice_from 6 ("data: " ++ payload) = payload.
Proof. split; reflexivity. Qed.

Lemma append_empty_r (s : string) : s ++ "" = s.
Proof. induction s as [|c s IH]; cbn; [reflexivity | now rewrite IH]. Qed.

Lemma append_assoc (s t u : string) : (s ++ t) ++ u = s ++ (t ++ u).
Proof. induction s as [|c s IH]; cbn; [reflexivity | now rewrite IH]. Qed.

Lemma data_line_shape (payload : string) :
  (("data: " ++ payload) =? "")%string = false /\
  startswith ("data: " ++ payload) "event: " = false.
Proof. split; reflexivity. Qed.

Lemma lookup_nonempty (k : string) (d : dict) (v : pyval) :
  dict_lookup k d = Some v -> truthy (PDict d) = true.
Proof. destruct d; [discriminate | reflexivity]. Qed.

(** ** The decoder of [chat_deployed] *)

Section DecoderProperties.

Variable json_loads : string -> result pyval.
Variable py_str : pyval -> string.

Import chat_deployed wire.
Local Abbreviation process_line := (chat_deployed.process_line json_loads py_str).
Local Abbreviation get_stream_line := (chat_deployed.get_stream_line json_loads py_str).
Local Abbreviation get_stream_lines := (chat_deployed.get_stream_lines json_loads py_str).
Local Abbreviation get_stream := (chat_deployed.get_stream json_loads py_str).
Local Abbreviation emit_tool_or_content := (chat_deployed.emit_tool_or_content py_str).
Local Abbreviation carries := (wire.carries json_loads).
Local Abbreviation argument_line := (wire.argument_line json_loads).
Local Abbreviation state := chat_deployed.mk_stream_state.

(** On a tagged chunk of a messages event, [process_line] is the
    finish-reason test followed by the tool-call branch. *)
Lemma process_line_message_chunk line chunk :
  carries line chunk -> is_message_chunk chunk ->
  process_line line (Some "messages") =
    (fin <- finished_with_tool_calls (PDict chunk) ;;
     if fin then Ok (PStr (nl ++ nl)) else emit_tool_or_content (PDict chunk)).
Proof.
  intros (payload & metadata & -> & Hloads) Htype.
  unfold chat_deployed.process_line.
  destruct (data_prefix payload) as [-> ->].
  change (event_is (Some "messages") "messages") with true. cbv iota.
  rewrite Hloads. cbn [bind unpack2].
  unfold is_ai_message_chunk. cbn [contains subscript bind].
  rewrite Htype. cbn [bind]. rewrite eq_str_refl. reflexivity.
Qed.

Lemma finished_when_tool_calls chunk :
  finish_reason_is chunk "tool_calls" ->
  finished_with_tool_calls (PDict chunk) = Ok true.
Proof.
  intros (rm & Hrm & Hfin).
  unfold finished_with_tool_calls. cbn [subscript bind]. rewrite Hrm. cbn [bind].
  rewrite (lookup_nonempty _ _ _ Hfin). cbn [get bind].
  unfold dict_get. rewrite Hfin. now rewrite eq_str_refl.
Qed.

Lemma not_finished_without_reason chunk :
  no_finish_reason chunk ->
  finished_with_tool_calls (PDict chunk) = Ok false.
Proof.
  intros (rm & Hrm & Hfin).
  unfold finished_with_tool_calls. cbn [subscript bind]. rewrite Hrm. cbn [bind].
  destruct (truthy (PDict rm)); [|reflexivity].
  cbn [get bind]. unfold dict_get. rewrite Hfin. reflexivity.
Qed.

(** The finish marker in [process_line]: the [return] leaves the
    function, so the paragraph break is the only unit of the chunk. *)
Lemma process_line_finish_marker line chunk :
  carries line chunk -> is_message_chunk chunk ->
  finish_reason_is chunk "tool_calls" ->
  process_line line (Some "messages") = Ok (PStr (nl ++ nl)).
Proof.
  intros Hc Ht Hf.
  rewrite (process_line_message_chunk _ _ Hc Ht).
  now rewrite (finished_when_tool_calls _ Hf).
Qed.

(** The tool-call branch on a chunk whose first fragment is an object. *)
Lemma emit_first_fragment chunk fragment :
  first_fragment chunk fragment ->
  emit_tool_or_content (PDict chunk) =
    let tool_name := dict_get fragment "name" (PStr "") in
    let args := dict_get fragment "args" (PStr "") in
    if truthy args then Ok args
    else if truthy tool_name then Ok (PStr (tool_call_header py_str tool_name))
    else Raise UnboundLocalError.
Proof.
  intros (others & Hl).
  unfold chat_deployed.emit_tool_or_content.
  cbn [subscript bind]. rewrite Hl. cbn [bind truthy subscript0 get].
  cbv zeta.
  destruct (truthy (dict_get fragment "args" (PStr "")));
    destruct (truthy (dict_get fragment "name" (PStr ""))); reflexivity.
Qed.

Lemma process_line_first_fragment line chunk fragment :
  carries line chunk -> is_message_chunk chunk -> no_finish_reason chunk ->
  first_fragment chunk fragment ->
  process_line line (Some "messages") =
    let tool_name := dict_get fragment "name" (PStr "") in
    let args := dict_get fragment "args" (PStr "") in
    if truthy args then Ok args
    else if truthy tool_name then Ok (PStr (tool_call_header py_str tool_name))
    else Raise UnboundLocalError.
Proof.
  intros Hc Ht Hf Hfr.
  rewrite (process_line_message_chunk _ _ Hc Ht).
  rewrite (not_finished_without_reason _ Hf). cbn [bind].
  now apply emit_first_fragment.
Qed.

(** A name with no argument text yields the header. *)
Lemma header_when_name_only line chunk fragment name :
  carries line chunk -> is_message_chunk chunk -> no_finish_reason chunk ->
  first_fragment chunk fragment ->
  dict_lookup "name" fragment = Some (PStr name) -> name <> EmptyString ->
  truthy (dict_get fragment "args" (PStr "")) = false ->
  process_line line (Some "messages") =
    Ok (PStr (nl ++ nl ++ "< TOOL CALL: " ++ name ++ " >" ++ nl ++ nl)).
Proof.
  intros Hc Ht Hf Hfr Hname Hne Hargs.
  rewrite (process_line_first_fragment _ _ _ Hc Ht Hf Hfr). cbv zeta.
  rewrite Hargs. unfold dict_get at 1. rewrite Hname.
  apply truthy_str in Hne. rewrite Hne.
  unfold dict_get. rewrite Hname. reflexivity.
Qed.

(** A line that is not an event line and for which [process_line]
    returns [None] leaves both locals of [get_stream] as they are. *)
Lemma get_stream_line_none st line :
  startswith line "event: " = false ->
  process_line line (current_event st) = Ok PNone ->
  get_stream_line st line = Ok st.
Proof.
  intros He Hp. unfold chat_deployed.get_stream_line.
  destruct (negb (line =? "")%string); [|reflexivity].
  rewrite He, Hp. reflexivity.
Qed.

(** A data line for which [process_line] returns a non-empty string
    appends that string. *)
Lemma get_stream_line_unit full ev payload s :
  process_line ("data: " ++ payload) ev = Ok (PStr s) ->
  get_stream_line (state full ev) ("data: " ++ payload) = Ok (state (full ++ s) ev).
Proof.
  intros Hp. unfold chat_deployed.get_stream_line.
  destruct (data_line_shape payload) as [-> ->].
  cbn [negb full_content current_event]. rewrite Hp. cbn [bind].
  destruct s as [|c s].
  - cbn [truthy String.eqb negb].
    now rewrite append_empty_r.
  - reflexivity.
Qed.

(** C2.  What [process_line] does on a first fragment that carries both
    a tool name and a non-empty argument string: the assignment of the
    arguments replaces the header built for the name, and the unit
    returned is the argument text alone. *)
Theorem header_replaced_by_arguments line chunk fragment name a :
  carries line chunk -> is_message_chunk chunk -> no_finish_reason chunk ->
  first_fragment chunk fragment ->
  dict_lookup "name" fragment = Some (PStr name) -> name <> EmptyString ->
  dict_lookup "args" fragment = Some (PStr a) -> a <> EmptyString ->
  process_line line (Some "messages") = Ok (PStr a).
Proof.
  intros Hc Ht Hf Hfr _ _ Hargs Hne.
  rewrite (process_line_first_fragment _ _ _ Hc Ht Hf Hfr). cbv zeta.
  unfold dict_get. rewrite Hargs.
  apply truthy_str in Hne. now rewrite Hne.
Qed.

(** C3.  On a tagged chunk whose first fragment has neither a name nor
    argument text that tests true, [process_line] reads the local
    [tool_call_str] before any assignment and raises
    [UnboundLocalError]: it returns no value there. *)
Theorem process_line_unbound_local line chunk fragment :
  carries line chunk -> is_message_chunk chunk -> no_finish_reason chunk ->
  first_fragment chunk fragment ->
  truthy (dict_get fragment "name" (PStr "")) = false ->
  truthy (dict_get fragment "args" (PStr "")) = false ->
  process_line line (Some "messages") = Raise UnboundLocalError.
Proof.
  intros Hc Ht Hf Hfr Hname Hargs.
  rewrite (process_line_first_fragment _ _ _ Hc Ht Hf Hfr). cbv zeta.
  now rewrite Hargs, Hname.
Qed.

Lemma not_finished_when_reason_differs chunk :
  not_finished_by_tool_calls chunk ->
  finished_with_tool_calls (PDict chunk) = Ok false.
Proof.
  intros (rm & Hrm & Hcase).
  unfold finished_with_tool_calls. cbn [subscript bind]. rewrite Hrm. cbn [bind].
  destruct Hcase as [Hfalse | (d & -> & Hne)].
  - now rewrite Hfalse.
  - destruct (truthy (PDict d)); [|reflexivity].
    cbn [get bind]. now rewrite Hne.
Qed.

Lemma process_line_argument_line line a :
  argument_line line a ->
  process_line line (Some "messages") = Ok (PStr a).
Proof.
  intros (chunk & fragment & Hc & Ht & Hf & Hfr & Hargs & Hne).
  rewrite (process_line_message_chunk _ _ Hc Ht).
  rewrite (not_finished_when_reason_differs _ Hf). cbn [bind].
  rewrite (emit_first_fragment _ _ Hfr). cbv zeta.
  unfold dict_get. rewrite Hargs.
  apply truthy_str in Hne. now rewrite Hne.
Qed.

(** C4, as the code has it.  Non-empty argument fragments on chunks whose
    finish reason is not [tool_calls] are appended in arrival order:
    after the lines that carry the fragments [frags], the transcript is
    the transcript before them followed by the concatenation of
    [frags]. *)
Theorem argument_fragments_concatenated lines frags full :
  Forall2 argument_line lines frags ->
  get_stream_lines (state full (Some "messages")) lines =
    Ok (state (full ++ String.concat "" frags) (Some "messages")).
Proof.
  intros H. revert full.
  induction H as [|line a lines frags Hline _ IH]; intros full.
  - cbn. now rewrite append_empty_r.
  - pose proof (process_line_argument_line _ _ Hline) as Hp.
    destruct Hline as (chunk & fragment & (payload & metadata & -> & _) & _).
    cbn [chat_deployed.get_stream_lines].
    rewrite (get_stream_line_unit _ _ _ _ Hp). cbn [bind].
    rewrite IH. f_equal. f_equal.
    rewrite append_assoc. f_equal.
    destruct frags as [|b frags]; [|reflexivity].
    cbn. now rewrite append_empty_r.
Qed.

(** C5, as the code has it.  While no event line has been read,
    [process_line] returns [None] for every line and raises nothing, and
    the line changes neither local of [get_stream]. *)
Theorem data_before_event_is_ignored line :
  process_line line None = Ok PNone /\
  (forall full, startswith line "event: " = false ->
     get_stream_line (state full None) line = Ok (state full None)).
Proof.
  assert (Hp : process_line line None = Ok PNone).
  { unfold chat_deployed.process_line.
    destruct (startswith line "data: "); reflexivity. }
  split; [exact Hp|].
  intros full He. now apply get_stream_line_none.
Qed.

(** C7.  Under an event kind other than [messages] (for one,
    [metadata]), [process_line] returns [None] whatever the payload and
    raises nothing; the line adds nothing to the transcript. *)
Theorem other_event_kinds_are_silent line ev :
  event_is ev "messages" = false ->
  process_line line ev = Ok PNone /\
  (forall full, startswith line "event: " = false ->
     get_stream_line (state full ev) line = Ok (state full ev)).
Proof.
  intros Hev.
  assert (Hp : process_line line ev = Ok PNone).
  { unfold chat_deployed.process_line. rewrite Hev.
    destruct (startswith line "data: "); [|reflexivity].
    destruct (event_is ev "metadata"); reflexivity. }
  split; [exact Hp|].
  intros full He. now apply get_stream_line_none.
Qed.

(** C8.  A tagged chunk with no finish reason and an empty list of
    tool-call fragments yields its content string: [process_line]
    returns it, the line loop appends it (an empty string leaves the
    transcript as it is), and the stream made of [event: messages] and
    the data line aggregates to the content. *)
Theorem plain_content_is_emitted line chunk content :
  carries line chunk -> is_message_chunk chunk -> no_finish_reason chunk ->
  dict_lookup "tool_call_chunks" chunk = Some (PList []) ->
  dict_lookup "content" chunk = Some (PStr content) ->
  process_line line (Some "messages") = Ok (PStr content) /\
  (forall full,
     get_stream_line (state full (Some "messages")) line =
       Ok (state (full ++ content) (Some "messages"))) /\
  (content = EmptyString -> forall full,
     get_stream_line (state full (Some "messages")) line =
       Ok (state full (Some "messages"))) /\
  get_stream ["event: messages"; line] = Ok content.
Proof.
  intros Hc Ht Hf Htc Hcontent.
  assert (Hp : process_line line (Some "messages") = Ok (PStr content)).
  { rewrite (process_line_message_chunk _ _ Hc Ht).
    rewrite (not_finished_without_reason _ Hf). cbn [bind].
    unfold chat_deployed.emit_tool_or_content.
    cbn [subscript bind]. rewrite Htc. cbn [bind truthy subscript].
    now rewrite Hcontent. }
  destruct Hc as (payload & metadata & -> & _).
  assert (Hl : forall full,
    get_stream_line (state full (Some "messages")) ("data: " ++ payload) =
      Ok (state (full ++ content) (Some "messages"))).
  { intros full. now apply get_stream_line_unit. }
  split; [exact Hp|]. split; [exact Hl|]. split.
  - intros -> full. rewrite Hl. now rewrite append_empty_r.
  - unfold chat_deployed.get_stream.
    cbn [chat_deployed.get_stream_lines].
    change (get_stream_line (state "" None) "event: messages")
      with (Ok (state "" (Some (strip "messages")))).
    change (strip "messages") with "messages".
    cbn [bind]. rewrite Hl. reflexivity.
Qed.

(** C9.  A chunk object without the field [type], or with another value
    than [AIMessageChunk] in it, is dropped: [process_line] returns
    [None] and the transcript is left as it is. *)
Theorem untagged_chunk_is_dropped line chunk :
  carries line chunk ->
  dict_lookup "type" chunk <> Some (PStr "AIMessageChunk") ->
  process_line line (Some "messages") = Ok PNone /\
  (forall full,
     get_stream_line (state full (Some "messages")) line =
       Ok (state full (Some "messages"))).
Proof.
  intros (payload & metadata & -> & Hloads) Htype.
  assert (Hp : process_line ("data: " ++ payload) (Some "messages") = Ok PNone).
  { unfold chat_deployed.process_line.
    destruct (data_prefix payload) as [-> ->].
    change (event_is (Some "messages") "messages") with true. cbv iota.
    rewrite Hloads. cbn [bind unpack2].
    unfold is_ai_message_chunk. cbn [contains subscript bind].
    destruct (dict_lookup "type" chunk) as [ty|]; [|reflexivity].
    cbn [bind]. destruct (eq_str ty "AIMessageChunk") eqn:E; [|reflexivity].
    apply eq_str_true in E. congruence. }
  split; [exact Hp|].
  intros full. apply get_stream_line_none; [|exact Hp].
  apply data_line_shape.
Qed.

End DecoderProperties.

(** ** The generator [Agent.stream] *)

Section StreamProperties.

Variable py_str : pyval -> string.
Import graph.

(** C1, on [Agent.stream].  The [yield] of the paragraph break does not
    leave the loop body: a chunk whose finish reason is [tool_calls]
    yields the break and then goes on to the tool-call branch.  With no
    tool-call fragments the chunk yields two units, the break and its
    content; with fragments it yields the break and the tool-call
    string, or the break alone followed by [UnboundLocalError]. *)
Theorem stream_finish_marker_falls_through tool_call_str c :
  dict_lookup "finish_reason" (response_metadata c) = Some (PStr "tool_calls") ->
  (tool_call_chunks c = [] ->
     stream_iteration py_str tool_call_str (AIChunk c) =
       ([PStr (nl ++ nl); content c], Ok tool_call_str)) /\
  ((exists v binding,
      stream_iteration py_str tool_call_str (AIChunk c) =
        ([PStr (nl ++ nl); v], Ok binding)) \/
   stream_iteration py_str tool_call_str (AIChunk c) =
     ([PStr (nl ++ nl)], Raise UnboundLocalError)).
Proof.
  intros Hfin.
  pose proof (lookup_nonempty _ _ _ Hfin) as Hrm.
  assert (Hd : dict_get (response_metadata c) "finish_reason" (PStr "")
               = PStr "tool_calls") by (unfold dict_get; now rewrite Hfin).
  unfold stream_iteration. rewrite Hrm, Hd, eq_str_refl.
  split.
  - intros ->. reflexivity.
  - destruct (tool_call_chunks c) as [|tool_chunk others].
    + left. now exists (content c), tool_call_str.
    + cbv zeta.
      destruct (truthy (dict_get tool_chunk "args" (PStr ""))).
      * left. eexists _, _. reflexivity.
      * destruct (truthy (dict_get tool_chunk "name" (PStr ""))).
        -- left. eexists _, _. reflexivity.
        -- destruct tool_call_str as [v|].
           ++ left. eexists _, _. reflexivity.
           ++ right. reflexivity.
Qed.

End StreamProperties.

(** ** The graph *)

Section GraphProperties.

Variable system_prompt : string.
Variable llm_invoke : list graph.BaseMessage -> result graph.BaseMessage.
Variable tool_node : graph.ScoutState -> result graph.ScoutState.
Import graph.
Local Abbreviation scout_node := (graph.scout_node system_prompt llm_invoke).
Local Abbreviation step := (graph.step system_prompt llm_invoke tool_node).
Local Abbreviation run := (graph.run system_prompt llm_invoke tool_node).

Lemma last_item_snoc {A : Type} (l : list A) (x : A) :
  last_item (l ++ [x])%list = Ok x.
Proof. unfold last_item. now rewrite rev_unit. Qed.

Lemma router_on_ai_message state content tcs :
  last_item (messages state) = Ok (AIMessage content tcs) ->
  router state = Ok (match tcs with [] => END | _ :: _ => tools end).
Proof.
  intros Hlast. unfold router. rewrite Hlast. cbn [bind tool_calls_of].
  destruct tcs; reflexivity.
Qed.

(** C6.  [router] sends a state whose last message carries no tool
    calls to [END], and one whose last message carries tool calls to
    [tools].  So when the model answers without tool calls, a run from
    [START] enters [chatbot] once and then [END], the answer appended
    to the messages; when it answers with tool calls, the step out of
    [chatbot] leads to [tools]. *)
Theorem route_after_chatbot state content :
  (last_item (messages state) = Ok (AIMessage content []) ->
     router state = Ok END) /\
  (forall tc tcs,
     last_item (messages state) = Ok (AIMessage content (tc :: tcs)) ->
     router state = Ok tools) /\
  (llm_invoke (SystemMessage system_prompt :: messages state)
     = Ok (AIMessage content []) ->
   forall hops,
     run (2 + hops) START state =
       Ok ([START; chatbot; END],
           mk_state (messages state ++ [AIMessage content []])%list
                    (chart_json state))) /\
  (forall tc tcs,
     llm_invoke (SystemMessage system_prompt :: messages state)
       = Ok (AIMessage content (tc :: tcs)) ->
     step chatbot state =
       Ok (tools,
           mk_state (messages state ++ [AIMessage content (tc :: tcs)])%list
                    (chart_json state))).
Proof.
  split; [|split; [|split]].
  - intros H. now rewrite (router_on_ai_message _ _ _ H).
  - intros tc tcs H. now rewrite (router_on_ai_message _ _ _ H).
  - intros Hllm hops.
    cbn [graph.run Nat.add graph.step bind].
    unfold graph.scout_node. cbn [app]. rewrite Hllm. cbn [bind].
    rewrite (router_on_ai_message _ content []); [|apply last_item_snoc].
    cbn [bind]. destruct hops; reflexivity.
  - intros tc tcs Hllm.
    cbn [graph.step]. unfold graph.scout_node. cbn [app]. rewrite Hllm.
    cbn [bind].
    rewrite (router_on_ai_message _ content (tc :: tcs)); [|apply last_item_snoc].
    reflexivity.
Qed.

End GraphProperties.

(** ** The environment module *)

Section EnvProperties.

Variable environ : string -> option string.
Variable py_float : string -> result Z.

(** C10.  The loop over [required_env_vars] tests the names, which are
    non-empty literals, so it never raises, whatever the environment
    holds.  The module body therefore raises only where [float] does,
    and otherwise completes with [SUPABASE_URL] and [GROQ_API_KEY] set to
    whatever the environment gives, [None] when they are missing. *)
Theorem required_check_never_raises :
  env.check_required env.required_env_vars = Ok tt /\
  (forall e,
     env.import_module environ py_float = Raise e ->
     exists s,
       env.getenv environ "GROQ_TEMPERATURE" (Some "0.0") = Some s /\
       py_float s = Raise e) /\
  (forall s t,
     env.getenv environ "GROQ_TEMPERATURE" (Some "0.0") = Some s ->
     py_float s = Ok t ->
     exists m,
       env.import_module environ py_float = Ok m /\
       env.SUPABASE_URL m = environ "SUPABASE_URL" /\
       env.GROQ_API_KEY m = environ "GROQ_API_KEY").
Proof.
  split; [reflexivity|]. split.
  - intros e. unfold env.import_module.
    destruct (env.getenv environ "GROQ_TEMPERATURE" (Some "0.0")) as [s|] eqn:Hs.
    + destruct (py_float s) as [t|e'] eqn:Hf; cbn [bind].
      * change (env.check_required env.required_env_vars) with (Ok tt).
        cbn [bind]. discriminate.
      * intros [= ->]. now exists s.
    + unfold env.getenv in Hs. destruct (environ "GROQ_TEMPERATURE"); discriminate.
  - intros s t Hs Hf. unfold env.import_module. rewrite Hs, Hf. cbn [bind].
    change (env.check_required env.required_env_vars) with (Ok tt).
    cbn [bind]. eexists. split; [reflexivity|]. cbn.
    unfold env.getenv.
    destruct (environ "SUPABASE_URL"), (environ "GROQ_API_KEY"); auto.
Qed.

End EnvProperties.

(** ** The statements at concrete inputs *)

Ltac solve_carries :=
  match goal with
  | |- wire.carries _ ?l _ =>
      exists (slice_from 6 l), (PDict []);
      split; [reflexivity | vm_compute; reflexivity]
  end.

Ltac solve_no_finish := exists []; split; reflexivity.
Ltac solve_first_fragment := exists []; reflexivity.

Section Instances.

Import examples.
Local Abbreviation loads := json_text.loads.
Local Abbreviation no_str := json_text.no_str.
Local Abbreviation process_line := (chat_deployed.process_line loads no_str).
Local Abbreviation get_stream := (chat_deployed.get_stream loads no_str).
Local Abbreviation state := chat_deployed.mk_stream_state.

(** The two examples of the protocol description. *)
Example hi_aggregates_to_hi :
  process_line hi_line (Some "messages") = Ok (PStr "Hi") /\
  get_stream ["event: messages"; hi_line] = Ok "Hi".
Proof. split; vm_compute; reflexivity. Qed.

Example name_then_arguments :
  get_stream ["event: messages"; name_line; args_line] =
    Ok (nl ++ nl ++ "< TOOL CALL: query_db >" ++ nl ++ nl ++ args_text).
Proof. vm_compute. reflexivity. Qed.

(** The finish marker on the wire: [process_line] returns the break and
    nothing of the content. *)
Example finish_line_returns_break :
  process_line finish_line (Some "messages") = Ok (PStr (nl ++ nl)) /\
  get_stream ["event: messages"; finish_line] = Ok (nl ++ nl).
Proof.
  split.
  - apply (process_line_finish_marker loads no_str finish_line finish_chunk).
    + solve_carries.
    + reflexivity.
    + exists [("finish_reason", PStr "tool_calls")]. split; reflexivity.
  - vm_compute. reflexivity.
Qed.

(** C1: the same chunk through [Agent.stream] yields the break and then
    the content. *)
Lemma stream_finish_marker_falls_through_witness :
  graph.stream no_str [graph.AIChunk finish_object] =
    ([PStr (nl ++ nl); PStr "x"], None).
Proof.
  destruct (stream_finish_marker_falls_through no_str None finish_object eq_refl)
    as [H _].
  unfold graph.stream, graph.stream_from.
  rewrite (H eq_refl). reflexivity.
Defined.

(** C2: name and argument text in one fragment; the header is not in
    the unit. *)
Lemma header_replaced_by_arguments_witness :
  process_line both_line (Some "messages") = Ok (PStr args_text).
Proof.
  apply (header_replaced_by_arguments loads no_str
           both_line both_chunk both_fragment "query_db" args_text).
  - solve_carries.
  - reflexivity.
  - solve_no_finish.
  - solve_first_fragment.
  - reflexivity.
  - discriminate.
  - reflexivity.
  - vm_compute. discriminate.
Defined.

(** C3: a fragment with an index only. *)
Lemma process_line_unbound_local_witness :
  process_line bare_line (Some "messages") = Raise UnboundLocalError.
Proof.
  apply (process_line_unbound_local loads no_str
           bare_line bare_chunk bare_fragment).
  - solve_carries.
  - reflexivity.
  - solve_no_finish.
  - solve_first_fragment.
  - reflexivity.
  - reflexivity.
Defined.

(** C4: the argument text in two pieces, after the header; the chunk of
    the second piece closes the answer with [stop]. *)
Lemma argument_fragments_concatenated_witness :
  chat_deployed.get_stream_lines loads no_str
    (state "< TOOL CALL: query_db >" (Some "messages"))
    [args_head_line; more_examples.tail_stop_line] =
    Ok (state ("< TOOL CALL: query_db >" ++ String.concat "" [args_head; args_tail])
              (Some "messages")).
Proof.
  apply (argument_fragments_concatenated loads no_str
           [args_head_line; more_examples.tail_stop_line] [args_head; args_tail]).
  repeat constructor.
  - exists args_head_chunk, args_head_fragment.
    split; [solve_carries|]. split; [reflexivity|].
    split; [exists (PDict []); split; [reflexivity | left; reflexivity]|].
    split; [solve_first_fragment|].
    split; [reflexivity | vm_compute; discriminate].
  - exists more_examples.tail_stop_chunk, args_tail_fragment.
    split; [solve_carries|]. split; [reflexivity|].
    split; [exists (PDict [("finish_reason", PStr "stop")]);
            split; [reflexivity | right; eexists; split; reflexivity]|].
    split; [solve_first_fragment|].
    split; [reflexivity | vm_compute; discriminate].
Defined.

(** C4: the second piece on the chunk that closes the answer with
    [tool_calls].  Both lines carry an argument fragment of the one tool
    call; the transcript holds the first fragment and the paragraph
    break, not the concatenation of the two. *)
Lemma fragment_on_finish_chunk_is_replaced :
  chat_deployed.get_stream_lines loads no_str (state "" (Some "messages"))
    [args_head_line; more_examples.tail_finish_line] =
    Ok (state (args_head ++ nl ++ nl) (Some "messages")) /\
  wire.carries loads more_examples.tail_finish_line more_examples.tail_finish_chunk /\
  wire.first_fragment more_examples.tail_finish_chunk args_tail_fragment /\
  dict_lookup "args" args_tail_fragment = Some (PStr args_tail) /\
  args_head ++ nl ++ nl <> String.concat "" [args_head; args_tail].
Proof.
  split; [vm_compute; reflexivity|].
  split; [solve_carries|].
  split; [exists []; reflexivity|].
  split; [reflexivity|].
  vm_compute. discriminate.
Qed.

(** C5: a data line as the first line of a stream.  [get_stream]
    returns the empty transcript; no exception is raised. *)
Lemma data_before_event_raises_nothing :
  get_stream [hi_line] = Ok "" /\
  ~ (exists e, get_stream [hi_line] = Raise e).
Proof.
  split.
  - vm_compute. reflexivity.
  - intros [e H]. vm_compute in H. discriminate.
Qed.

Lemma data_before_event_is_ignored_witness :
  process_line hi_line None = Ok PNone /\
  chat_deployed.get_stream_line loads no_str (state "" None) hi_line
    = Ok (state "" None).
Proof.
  destruct (data_before_event_is_ignored loads no_str hi_line) as [Hp Hl].
  split; [exact Hp|].
  apply Hl. vm_compute. reflexivity.
Defined.

(** C7: a payload under the event kind [metadata]. *)
Lemma other_event_kinds_are_silent_witness :
  process_line metadata_line (Some "metadata") = Ok PNone /\
  chat_deployed.get_stream_line loads no_str (state "Hi" (Some "metadata")) metadata_line
    = Ok (state "Hi" (Some "metadata")).
Proof.
  destruct (other_event_kinds_are_silent loads no_str metadata_line (Some "metadata"))
    as [Hp Hl].
  - reflexivity.
  - split; [exact Hp|]. apply Hl. vm_compute. reflexivity.
Defined.

(** C8: the example line. *)
Lemma plain_content_is_emitted_witness :
  get_stream ["event: messages"; hi_line] = Ok "Hi".
Proof.
  apply (plain_content_is_emitted loads no_str hi_line hi_chunk "Hi").
  - solve_carries.
  - reflexivity.
  - solve_no_finish.
  - reflexivity.
  - reflexivity.
Defined.

(** C9: a streamed human message. *)
Lemma untagged_chunk_is_dropped_witness :
  process_line human_line (Some "messages") = Ok PNone.
Proof.
  apply (untagged_chunk_is_dropped loads no_str human_line human_chunk).
  - solve_carries.
  - vm_compute. discriminate.
Defined.

(** C6: a model that answers without tool calls. *)
Lemma route_after_chatbot_witness :
  graph.run "You are a helpful assistant." quiet_llm idle_tool_node 2 graph.START greeting =
    Ok ([graph.START; graph.chatbot; graph.END],
        graph.mk_state [graph.HumanMessage "hi"; graph.AIMessage "hello" []] "").
Proof.
  destruct (route_after_chatbot "You are a helpful assistant."
              quiet_llm idle_tool_node greeting "hello")
    as (_ & _ & H & _).
  exact (H eq_refl 0).
Defined.

(** C10: nothing set in the environment; the module body completes. *)
Lemma required_check_never_raises_witness :
  exists m,
    env.import_module empty_environ zero_float = Ok m /\
    env.SUPABASE_URL m = None /\ env.GROQ_API_KEY m = None.
Proof.
  destruct (required_check_never_raises empty_environ zero_float)
    as (_ & _ & H).
  exact (H "0.0" 0%Z eq_refl eq_refl).
Defined.

End Instances.

(** * Further properties of the code *)

(** ** The decoder, beyond the chunk rules *)

Section DecoderEdges.

Variable json_loads : string -> result pyval.
Variable py_str : pyval -> string.
Import chat_deployed wire.
Local Abbreviation process_line := (chat_deployed.process_line json_loads py_str).
Local Abbreviation get_stream_line := (chat_deployed.get_stream_line json_loads py_str).
Local Abbreviation get_stream_lines := (chat_deployed.get_stream_lines json_loads py_str).
Local Abbreviation get_stream := (chat_deployed.get_stream json_loads py_str).
Local Abbreviation carries := (wire.carries json_loads).
Local Abbreviation state := chat_deployed.mk_stream_state.

Lemma process_line_other_kind line ev :
  event_is ev "messages" = false -> process_line line ev = Ok PNone.
Proof.
  intros Hev. unfold chat_deployed.process_line. rewrite Hev.
  destruct (startswith line "data: "); [|reflexivity].
  destruct (event_is ev "metadata"); reflexivity.
Qed.

Lemma process_line_payload payload :
  process_line ("data: " ++ payload) (Some "messages") =
    (parsed <- json_loads payload ;;
     '(message_chunk, metadata) <- unpack2 parsed ;;
     ai <- is_ai_message_chunk message_chunk ;;
     if ai then
       fin <- finished_with_tool_calls message_chunk ;;
       if fin then Ok (PStr (nl ++ nl))
       else chat_deployed.emit_tool_or_content py_str message_chunk
     else Ok PNone).
Proof.
  unfold chat_deployed.process_line.
  destruct (data_prefix payload) as [-> ->]. reflexivity.
Qed.

Lemma get_stream_line_data full ev payload :
  get_stream_line (state full ev) ("data: " ++ payload) =
    (message_chunk <- process_line ("data: " ++ payload) ev ;;
     if truthy message_chunk then
       content' <- iadd_str full message_chunk ;;
       Ok (state content' ev)
     else Ok (state full ev)).
Proof.
  unfold chat_deployed.get_stream_line.
  destruct (data_line_shape payload) as [-> ->]. reflexivity.
Qed.

(** X1.  The finish marker in the client decoder: whatever else the chunk
    holds, and even when it lacks the fields [content] and
    [tool_call_chunks], the line adds exactly the paragraph break to the
    transcript. *)
Theorem finish_marker_appends_break line chunk full :
  carries line chunk -> is_message_chunk chunk ->
  finish_reason_is chunk "tool_calls" ->
  get_stream_line (state full (Some "messages")) line =
    Ok (state (full ++ nl ++ nl) (Some "messages")).
Proof.
  intros Hc Ht Hf.
  pose proof (process_line_finish_marker json_loads py_str _ _ Hc Ht Hf) as Hp.
  destruct Hc as (payload & metadata & -> & _).
  now apply get_stream_line_unit.
Qed.

(** X2.  A first fragment with a tool name and no argument text adds the
    header of the tool call to the transcript. *)
Theorem name_only_fragment_appends_header line chunk fragment name full :
  carries line chunk -> is_message_chunk chunk -> no_finish_reason chunk ->
  first_fragment chunk fragment ->
  dict_lookup "name" fragment = Some (PStr name) -> name <> EmptyString ->
  truthy (dict_get fragment "args" (PStr "")) = false ->
  get_stream_line (state full (Some "messages")) line =
    Ok (state (full ++ nl ++ nl ++ "< TOOL CALL: " ++ name ++ " >" ++ nl ++ nl)
              (Some "messages")).
Proof.
  intros Hc Ht Hf Hfr Hname Hne Hargs.
  pose proof (header_when_name_only json_loads py_str _ _ _ _
                Hc Ht Hf Hfr Hname Hne Hargs) as Hp.
  destruct Hc as (payload & metadata & -> & _).
  now apply get_stream_line_unit.
Qed.

(** X3.  A line without the prefix [data: ] (the prefix includes the
    blank) is never parsed: [process_line] returns [None] under every
    event kind, [messages] included, and the transcript stays as it is. *)
Theorem line_without_data_prefix_is_ignored line st :
  startswith line "data: " = false ->
  process_line line (current_event st) = Ok PNone /\
  (startswith line "event: " = false -> get_stream_line st line = Ok st).
Proof.
  intros Hd.
  assert (Hp : process_line line (current_event st) = Ok PNone).
  { unfold chat_deployed.process_line. now rewrite Hd. }
  split; [exact Hp|].
  intros He. now apply get_stream_line_none.
Qed.

(** X4.  A payload of a messages event that [json.loads] rejects: the
    exception leaves [process_line] unchanged and ends the line loop at
    that line, whatever follows. *)
Theorem decode_error_propagates payload e full rest :
  json_loads payload = Raise e ->
  process_line ("data: " ++ payload) (Some "messages") = Raise e /\
  get_stream_lines (state full (Some "messages")) (("data: " ++ payload) :: rest)
    = Raise e /\
  get_stream ("event: messages" :: ("data: " ++ payload) :: rest) = Raise e.
Proof.
  intros Hl.
  assert (Hp : process_line ("data: " ++ payload) (Some "messages") = Raise e).
  { rewrite process_line_payload, Hl. reflexivity. }
  assert (Hs : forall full', get_stream_lines (state full' (Some "messages"))
                 (("data: " ++ payload) :: rest) = Raise e).
  { intros full'. cbn [chat_deployed.get_stream_lines].
    rewrite get_stream_line_data, Hp. reflexivity. }
  split; [exact Hp|]. split; [apply Hs|].
  unfold chat_deployed.get_stream.
  change (get_stream_lines (state "" None)
            ("event: messages" :: ("data: " ++ payload) :: rest))
    with (get_stream_lines (state "" (Some "messages"))
            (("data: " ++ payload) :: rest)).
  now rewrite Hs.
Qed.

(** X5.  A payload that parses but is not a pair: a list of another
    length makes the unpacking raise [ValueError]; [null], a boolean or a
    number makes it raise [TypeError]. *)
Theorem payload_shape_errors payload v :
  json_loads payload = Ok v ->
  (forall l, v = PList l -> length l <> 2 ->
     process_line ("data: " ++ payload) (Some "messages") = Raise ValueError) /\
  (match v with PNone | PBool _ | PInt _ | PFloat _ => True | _ => False end ->
     process_line ("data: " ++ payload) (Some "messages") = Raise TypeError).
Proof.
  intros Hl. split.
  - intros l -> Hlen. rewrite process_line_payload, Hl. cbn [bind unpack2].
    destruct l as [|a [|b [|c l]]]; try reflexivity.
    now elim Hlen.
  - intros Hv. rewrite process_line_payload, Hl.
    destruct v; try contradiction; reflexivity.
Qed.

(** X6.  Fields the code subscripts without a test.  On a tagged chunk, a
    missing [response_metadata] raises [KeyError]; with no finish reason,
    so does a missing [tool_call_chunks]; and with an empty list of
    fragments, so does a missing [content]. *)
Theorem missing_field_raises_key_error line chunk :
  carries line chunk -> is_message_chunk chunk ->
  (dict_lookup "response_metadata" chunk = None ->
     process_line line (Some "messages") = Raise KeyError) /\
  (no_finish_reason chunk -> dict_lookup "tool_call_chunks" chunk = None ->
     process_line line (Some "messages") = Raise KeyError) /\
  (no_finish_reason chunk ->
   dict_lookup "tool_call_chunks" chunk = Some (PList []) ->
   dict_lookup "content" chunk = None ->
     process_line line (Some "messages") = Raise KeyError).
Proof.
  intros Hc Ht.
  rewrite (process_line_message_chunk json_loads py_str _ _ Hc Ht).
  split; [|split].
  - intros Hrm. unfold finished_with_tool_calls. cbn [subscript bind].
    now rewrite Hrm.
  - intros Hf Htc. rewrite (not_finished_without_reason _ Hf). cbn [bind].
    unfold chat_deployed.emit_tool_or_content. cbn [subscript bind].
    now rewrite Htc.
  - intros Hf Htc Hcontent. rewrite (not_finished_without_reason _ Hf). cbn [bind].
    unfold chat_deployed.emit_tool_or_content. cbn [subscript bind].
    rewrite Htc. cbn [bind truthy subscript]. now rewrite Hcontent.
Qed.

(** X7.  Content that is not a string (a list of content blocks, a
    number, [null]).  [process_line] returns it as it is; the line loop
    then raises [TypeError] at [full_content += message_chunk] when the
    value tests true, and passes over it when it tests false. *)
Theorem non_string_content line chunk v full :
  carries line chunk -> is_message_chunk chunk -> no_finish_reason chunk ->
  dict_lookup "tool_call_chunks" chunk = Some (PList []) ->
  dict_lookup "content" chunk = Some v ->
  (forall s, v <> PStr s) ->
  process_line line (Some "messages") = Ok v /\
  get_stream_line (state full (Some "messages")) line =
    if truthy v then Raise TypeError else Ok (state full (Some "messages")).
Proof.
  intros Hc Ht Hf Htc Hcontent Hv.
  assert (Hp : process_line line (Some "messages") = Ok v).
  { rewrite (process_line_message_chunk json_loads py_str _ _ Hc Ht).
    rewrite (not_finished_without_reason _ Hf). cbn [bind].
    unfold chat_deployed.emit_tool_or_content. cbn [subscript bind].
    rewrite Htc. cbn [bind truthy subscript]. now rewrite Hcontent. }
  split; [exact Hp|].
  destruct Hc as (payload & metadata & -> & _).
  rewrite get_stream_line_data, Hp. cbn [bind].
  destruct (truthy v); [|reflexivity].
  destruct v; try reflexivity. now elim (Hv s).
Qed.

Lemma get_stream_line_extends st line st' :
  get_stream_line st line = Ok st' ->
  exists suffix, full_content st' = full_content st ++ suffix.
Proof.
  unfold chat_deployed.get_stream_line.
  destruct (negb (line =? "")%string).
  - destruct (startswith line "event: ").
    + intros [= <-]. exists EmptyString. cbn. now rewrite append_empty_r.
    + destruct (process_line line (current_event st)) as [v|e]; cbn [bind];
        [|discriminate].
      destruct (truthy v).
      * destruct v; cbn [iadd_str bind]; try discriminate.
        intros [= <-]. now exists s.
      * intros [= <-]. exists EmptyString. now rewrite append_empty_r.
  - intros [= <-]. exists EmptyString. now rewrite append_empty_r.
Qed.

(** X8.  The transcript only grows: whatever lines arrive, if the loop
    completes, the text accumulated before is a prefix of the text
    accumulated after. *)
Theorem transcript_is_append_only lines st st' :
  get_stream_lines st lines = Ok st' ->
  exists suffix, full_content st' = full_content st ++ suffix.
Proof.
  revert st. induction lines as [|line lines IH]; intros st.
  - intros [= <-]. exists EmptyString. now rewrite append_empty_r.
  - cbn [chat_deployed.get_stream_lines].
    destruct (get_stream_line st line) as [st1|e] eqn:H1; cbn [bind];
      [|discriminate].
    intros H2.
    destruct (get_stream_line_extends _ _ _ H1) as (s1 & E1).
    destruct (IH _ H2) as (s2 & E2).
    exists (s1 ++ s2). rewrite E2, E1. apply append_assoc.
Qed.

(** X10.  An event line of a kind other than [messages] silences the
    lines that follow it, up to the next event line: none of them is
    parsed, none raises, and the transcript is the one before. *)
Theorem other_event_silences_following_lines kind lines full ev :
  (strip kind =? "messages")%string = false ->
  Forall (fun line => startswith line "event: " = false) lines ->
  get_stream_lines (state full ev) (("event: " ++ kind) :: lines) =
    Ok (state full (Some (strip kind))).
Proof.
  intros Hk Hlines.
  cbn [chat_deployed.get_stream_lines].
  change (get_stream_line (state full ev) ("event: " ++ kind))
    with (Ok (state full (Some (strip kind)))).
  cbn [bind].
  induction Hlines as [|line lines Hline _ IH]; [reflexivity|].
  cbn [chat_deployed.get_stream_lines].
  rewrite get_stream_line_none; [exact IH | exact Hline |].
  now apply process_line_other_kind.
Qed.

End DecoderEdges.

(** ** [Agent.stream], beyond the finish marker *)

Section StreamEdges.

Variable py_str : pyval -> string.
Import graph stream_items.

Lemma no_marker_no_break (c : AIMessageChunk) :
  eq_str (dict_get (response_metadata c) "finish_reason" (PStr ""))
         "tool_calls" = false ->
  (if truthy (PDict (response_metadata c)) then
     if eq_str (dict_get (response_metadata c) "finish_reason" (PStr ""))
               "tool_calls"
     then [PStr (nl ++ nl)] else []
   else []) = @nil pyval.
Proof. intros ->. now destruct (truthy _). Qed.

(** X11.  The local [tool_call_str] outlives the iteration that bound it.
    A first fragment with neither a name nor argument text makes the
    generator yield again the string of the previous tool-call chunk; only
    when no chunk has bound it yet does the generator end with
    [UnboundLocalError]. *)
Theorem bare_fragment_repeats_previous_unit tool_call_str c fragment others :
  tool_call_chunks c = fragment :: others ->
  eq_str (dict_get (response_metadata c) "finish_reason" (PStr ""))
         "tool_calls" = false ->
  truthy (dict_get fragment "name" (PStr "")) = false ->
  truthy (dict_get fragment "args" (PStr "")) = false ->
  stream_iteration py_str tool_call_str (AIChunk c) =
    match tool_call_str with
    | Some v => ([v], Ok (Some v))
    | None => ([], Raise UnboundLocalError)
    end.
Proof.
  intros Htc Hfin Hname Hargs.
  unfold stream_iteration. rewrite (no_marker_no_break _ Hfin), Htc.
  cbv zeta. rewrite Hname, Hargs.
  now destruct tool_call_str.
Qed.

(** X12.  Messages of other classes yield nothing, and a chunk with no
    tool-call fragments and no finish marker yields its content: a run of
    such items yields the contents of the chunks, in order, and ends
    without an exception. *)
Theorem plain_items_yield_their_content ms tool_call_str :
  Forall plain_item ms ->
  stream_from py_str tool_call_str ms = (flat_map content_of ms, None).
Proof.
  intros H. induction H as [|m ms Hm _ IH]; [reflexivity|].
  cbn [stream_from flat_map].
  destruct m as [c|].
  - destruct Hm as [Htc Hfin].
    unfold stream_iteration. rewrite (no_marker_no_break _ Hfin), Htc.
    cbn [app]. rewrite IH. reflexivity.
  - cbn [stream_iteration]. rewrite IH. reflexivity.
Qed.

End StreamEdges.

(** ** The two copies of the chunk rules *)

Section Agreement.

Variable json_loads : string -> result pyval.
Variable py_str : pyval -> string.
Import chat_deployed wire graph.
Local Abbreviation process_line := (chat_deployed.process_line json_loads py_str).
Local Abbreviation carries := (wire.carries json_loads).

(** X13.  [process_line] and a fresh [Agent.stream] apply the same rules
    to a chunk without the finish marker.  When the object on the wire has
    the fields of the chunk object, either the generator yields one unit
    and [process_line] returns that unit, or both raise
    [UnboundLocalError] and nothing is yielded. *)
Theorem decoder_agrees_with_stream line chunk c :
  carries line chunk -> is_message_chunk chunk ->
  dict_lookup "content" chunk = Some (content c) ->
  dict_lookup "tool_call_chunks" chunk
    = Some (PList (List.map PDict (tool_call_chunks c))) ->
  dict_lookup "response_metadata" chunk = Some (PDict (response_metadata c)) ->
  eq_str (dict_get (response_metadata c) "finish_reason" (PStr ""))
         "tool_calls" = false ->
  (exists v binding,
     stream_iteration py_str None (AIChunk c) = ([v], Ok binding) /\
     process_line line (Some "messages") = Ok v) \/
  (stream_iteration py_str None (AIChunk c) = ([], Raise UnboundLocalError) /\
   process_line line (Some "messages") = Raise UnboundLocalError).
Proof.
  intros Hc Ht Hcontent Htc Hrm Hfin.
  rewrite (process_line_message_chunk json_loads py_str _ _ Hc Ht).
  assert (Hnf : finished_with_tool_calls (PDict chunk) = Ok false).
  { unfold finished_with_tool_calls. cbn [subscript bind]. rewrite Hrm.
    cbn [bind]. destruct (truthy (PDict (response_metadata c))); [|reflexivity].
    cbn [get bind]. now rewrite Hfin. }
  rewrite Hnf. cbn [bind].
  unfold stream_iteration, chat_deployed.emit_tool_or_content.
  rewrite (no_marker_no_break _ Hfin).
  cbn [subscript bind]. rewrite Htc. cbn [bind].
  destruct (tool_call_chunks c) as [|fragment others].
  - cbn [List.map truthy subscript]. rewrite Hcontent.
    left. now exists (content c), None.
  - cbn [List.map truthy subscript0 get bind]. cbv zeta.
    destruct (truthy (dict_get fragment "args" (PStr ""))).
    + left. eexists _, _. split; reflexivity.
    + destruct (truthy (dict_get fragment "name" (PStr ""))).
      * left. eexists _, _. split; reflexivity.
      * right. split; reflexivity.
Qed.

End Agreement.

(** ** The graph loop *)

Section GraphEdges.

Variable system_prompt : string.
Variable llm_invoke : list graph.BaseMessage -> result graph.BaseMessage.
Variable tool_node : graph.ScoutState -> result graph.ScoutState.
Import graph.
Local Abbreviation scout_node := (graph.scout_node system_prompt llm_invoke).
Local Abbreviation step := (graph.step system_prompt llm_invoke tool_node).
Local Abbreviation run := (graph.run system_prompt llm_invoke tool_node).

Lemma router_snoc ms m chart :
  router (mk_state (ms ++ [m])%list chart) =
    match m with
    | AIMessage _ [] => Ok END
    | AIMessage _ (_ :: _) => Ok tools
    | _ => Raise AttributeError
    end.
Proof.
  unfold router. cbn [messages]. rewrite last_item_snoc. cbn [bind].
  destruct m as [| |c [|tc tcs]|]; reflexivity.
Qed.

Lemma router_end_inv state :
  router state = Ok END ->
  exists content, last_item (messages state) = Ok (AIMessage content []).
Proof.
  unfold router.
  destruct (last_item (messages state)) as [m|e]; cbn [bind]; [|discriminate].
  destruct m as [| |c [|tc tcs]|]; cbn [tool_calls_of bind negb]; try discriminate.
  intros _. now exists c.
Qed.

Lemma router_targets state n :
  router state = Ok n -> n = END \/ n = tools.
Proof.
  unfold router.
  destruct (last_item (messages state)) as [m|e]; cbn [bind]; [|discriminate].
  destruct m as [| |c [|tc tcs]|]; cbn [tool_calls_of bind negb]; try discriminate;
    intros [= <-]; auto.
Qed.

(** X14.  [router] on every state.  With no message at all it raises
    [IndexError]; with a last message that is not an [AIMessage] it
    raises [AttributeError]; otherwise it returns [END] for an empty list
    of tool calls and [tools] for any other.  It never names another
    node. *)
Theorem router_outcomes :
  (forall chart, router (mk_state [] chart) = Raise IndexError) /\
  (forall ms m chart,
     router (mk_state (ms ++ [m])%list chart) =
       match m with
       | AIMessage _ [] => Ok END
       | AIMessage _ (_ :: _) => Ok tools
       | _ => Raise AttributeError
       end) /\
  (forall state n, router state = Ok n -> n = END \/ n = tools).
Proof.
  split; [reflexivity|]. split; [apply router_snoc | apply router_targets].
Qed.

Lemma scout_node_extends state state' :
  scout_node state = Ok state' ->
  exists response,
    messages state' = (messages state ++ [response])%list /\
    chart_json state' = chart_json state.
Proof.
  unfold graph.scout_node.
  destruct (llm_invoke _) as [response|e]; cbn [bind]; [|discriminate].
  intros [= <-]. now exists response.
Qed.

(** X15.  History is append-only across a run.  If the tool node only
    appends messages, then whatever the model answers and however many
    hops the run takes, the messages it started from are a prefix of the
    messages it ends with. *)
Theorem run_extends_history :
  (forall s s', tool_node s = Ok s' ->
     exists added, messages s' = (messages s ++ added)%list) ->
  forall hops n state visited final,
    run hops n state = Ok (visited, final) ->
    exists added, messages final = (messages state ++ added)%list.
Proof.
  intros Htool hops.
  induction hops as [|k IH]; intros n state visited final.
  - destruct n; cbn [graph.run]; intros [= _ <-];
      exists []; now rewrite app_nil_r.
  - destruct n; cbn [graph.run graph.step bind].
    + intros H.
      destruct (run k chatbot state) as [[v f]|e] eqn:Hr; cbn [bind] in H;
        [|discriminate].
      injection H as _ <-. exact (IH _ _ _ _ Hr).
    + destruct (scout_node state) as [s1|e] eqn:Hs; cbn [bind]; [|discriminate].
      destruct (router s1) as [next|e]; cbn [bind]; [|discriminate].
      destruct (run k next s1) as [[v f]|e] eqn:Hr; cbn [bind]; [|discriminate].
      intros [= _ <-].
      destruct (scout_node_extends _ _ Hs) as (response & E1 & _).
      destruct (IH _ _ _ _ Hr) as (added & E2).
      exists ([response] ++ added)%list. now rewrite E2, E1, <- app_assoc.
    + destruct (tool_node state) as [s1|e] eqn:Hs; cbn [bind]; [|discriminate].
      destruct (run k chatbot s1) as [[v f]|e] eqn:Hr; cbn [bind]; [|discriminate].
      intros [= _ <-].
      destruct (Htool _ _ Hs) as (a1 & E1).
      destruct (IH _ _ _ _ Hr) as (a2 & E2).
      exists (a1 ++ a2)%list. now rewrite E2, E1, <- app_assoc.
    + intros [= _ <-]. exists []. now rewrite app_nil_r.
Qed.

Lemma run_visits_first hops n state visited final :
  run hops n state = Ok (visited, final) ->
  exists rest, visited = n :: rest.
Proof.
  destruct hops as [|k], n; cbn [graph.run];
    try (intros [= <- _]; now exists []).
  all: destruct (step _ state) as [[n' s']|e]; cbn [bind]; [|discriminate];
    destruct (run k n' s') as [[v f]|e]; cbn [bind]; [|discriminate];
    intros [= <- _]; now exists v.
Qed.

(** X16.  A run that reaches [END] stops on an answer without tool
    calls: if the run leaves a node other than [END] and the last node it
    enters is [END], the last message of the final state is an
    [AIMessage] whose list of tool calls is empty. *)
Theorem run_ends_without_tool_calls hops n state visited final :
  n <> END ->
  run hops n state = Ok (visited, final) ->
  List.last visited START = END ->
  exists content, last_item (messages final) = Ok (AIMessage content []).
Proof.
  revert n state visited final.
  induction hops as [|k IH]; intros n state visited final Hn.
  - destruct n; cbn [graph.run]; try (now elim Hn);
      intros [= <- _]; cbn; discriminate.
  - assert (Hgen : forall n' s',
      step n state = Ok (n', s') ->
      (n' = END -> router s' = Ok END) ->
      run (S k) n state = Ok (visited, final) ->
      List.last visited START = END ->
      exists content, last_item (messages final) = Ok (AIMessage content [])).
    { intros n' s' Hstep Hend.
      assert (Hrun : run (S k) n state =
                ('(v, f) <- run k n' s' ;; Ok (n :: v, f))).
      { destruct n; try (now elim Hn); cbn [graph.run]; now rewrite Hstep. }
      rewrite Hrun.
      destruct (run k n' s') as [[v f]|e] eqn:Hr; cbn [bind]; [|discriminate].
      intros [= <- <-] Hlast.
      destruct (run_visits_first _ _ _ _ _ Hr) as (rest & ->).
      change (List.last (n' :: rest) START = END) in Hlast.
      destruct n'.
      - exact (IH START s' _ _ ltac:(discriminate) Hr Hlast).
      - exact (IH chatbot s' _ _ ltac:(discriminate) Hr Hlast).
      - exact (IH tools s' _ _ ltac:(discriminate) Hr Hlast).
      - assert (f = s') as ->.
        { destruct k; cbn [graph.run] in Hr; now injection Hr. }
        apply router_end_inv. now apply Hend. }
    destruct n; try (now elim Hn).
    + apply (Hgen chatbot state); [reflexivity | discriminate].
    + cbn [graph.run graph.step].
      destruct (scout_node state) as [s1|e] eqn:Hs; cbn [bind]; [|discriminate].
      destruct (router s1) as [next|e] eqn:Hroute; cbn [bind]; [|discriminate].
      intros Hrun Hlast.
      apply (Hgen next s1); [| now intros -> | | exact Hlast].
      * cbn [graph.step]. rewrite Hs. cbn [bind]. now rewrite Hroute.
      * cbn [graph.run graph.step]. rewrite Hs. cbn [bind]. rewrite Hroute.
        exact Hrun.
    + cbn [graph.run graph.step].
      destruct (tool_node state) as [s1|e] eqn:Hs; cbn [bind]; [|discriminate].
      intros Hrun Hlast.
      apply (Hgen chatbot s1); [| discriminate | | exact Hlast].
      * cbn [graph.step]. now rewrite Hs.
      * cbn [graph.run graph.step]. rewrite Hs. exact Hrun.
Qed.

End GraphEdges.

Section GraphLoop.

Variable system_prompt : string.
Variable llm_invoke : list graph.BaseMessage -> result graph.BaseMessage.
Variable tool_node : graph.ScoutState -> result graph.ScoutState.
Import graph.
Local Abbreviation step := (graph.step system_prompt llm_invoke tool_node).
Local Abbreviation run := (graph.run system_prompt llm_invoke tool_node).

(** X17.  A model that never stops asking for tools.  If the model asks
    for a tool in every answer and the tool node always completes, no run
    enters [END]: whatever the bound on its steps, the run uses the bound
    up and raises [GraphRecursionError]. *)
Theorem run_never_ends_while_tools_are_requested :
  (forall ms, exists content tc tcs,
     llm_invoke ms = Ok (AIMessage content (tc :: tcs))) ->
  (forall s, exists s', tool_node s = Ok s') ->
  forall hops n state,
    n <> END ->
    run hops n state = Raise GraphRecursionError.
Proof.
  intros Hllm Htool hops.
  induction hops as [|k IH]; intros n state Hn.
  - destruct n; try reflexivity. now elim Hn.
  - assert (Hstep : exists n' s', step n state = Ok (n', s') /\ n' <> END).
    { destruct n; try (now elim Hn).
      - exists chatbot, state. split; [reflexivity | discriminate].
      - destruct (Hllm ([SystemMessage system_prompt] ++ messages state)%list)
          as (content & tc & tcs & Hl).
        eexists tools, _. split; [|discriminate].
        cbn [graph.step]. unfold graph.scout_node. rewrite Hl. cbn [bind].
        unfold router. cbn [messages]. rewrite last_item_snoc. reflexivity.
      - destruct (Htool state) as (s' & Hs).
        exists chatbot, s'. split; [|discriminate].
        cbn [graph.step]. now rewrite Hs. }
    destruct Hstep as (n' & s' & Hstep & Hn').
    destruct n; try (now elim Hn); cbn [graph.run];
      rewrite Hstep; cbn [bind]; now rewrite (IH n' s' Hn').
Qed.

(** X18.  One tool hop.  When the model first asks for a tool and, on
    the state the tool node returns, answers without tool calls, the run
    is [START, chatbot, tools, chatbot, END]; the second call of the
    model receives the system prompt followed by the messages the tool
    node left, and its answer is the last message of the result. *)
Theorem run_with_one_tool_hop state content1 tc tcs after_tools content2 hops :
  llm_invoke (SystemMessage system_prompt :: messages state)
    = Ok (AIMessage content1 (tc :: tcs)) ->
  tool_node (mk_state (messages state ++ [AIMessage content1 (tc :: tcs)])%list
                      (chart_json state))
    = Ok after_tools ->
  llm_invoke (SystemMessage system_prompt :: messages after_tools)
    = Ok (AIMessage content2 []) ->
  run (4 + hops) START state =
    Ok ([START; chatbot; tools; chatbot; END],
        mk_state (messages after_tools ++ [AIMessage content2 []])%list
                 (chart_json after_tools)).
Proof.
  intros H1 Ht H2.
  cbn [graph.run Nat.add graph.step bind].
  unfold graph.scout_node at 1. cbn [app]. rewrite H1. cbn [bind].
  unfold router at 1. cbn [messages]. rewrite last_item_snoc.
  cbn [bind tool_calls_of negb graph.run graph.step].
  rewrite Ht. cbn [bind graph.run graph.step].
  unfold graph.scout_node. cbn [app]. rewrite H2. cbn [bind].
  unfold router. cbn [messages]. rewrite last_item_snoc.
  cbn [bind tool_calls_of negb].
  destruct hops; reflexivity.
Qed.

End GraphLoop.

(** ** The chat model and the environment *)

Section ChatModelProperties.

Variable float_str : Z -> string.
Import chat_model.
Local Abbreviation get_groq_chat_model := (chat_model.get_groq_chat_model float_str).
Local Abbreviation get_groq_chat_model_times :=
  (chat_model.get_groq_chat_model_times float_str).
Local Abbreviation config_lines := (chat_model.config_lines float_str).

Lemma get_groq_chat_model_with_key settings key logged :
  env.GROQ_API_KEY settings = Some key -> key <> EmptyString ->
  get_groq_chat_model settings logged =
    Ok (mk_chat_groq (env.GROQ_MODEL settings) (env.GROQ_TEMPERATURE settings)
          key false thirty,
        true,
        if logged then []
        else config_lines (env.GROQ_MODEL settings) key
               (env.GROQ_TEMPERATURE settings)).
Proof.
  intros Hk Hne. unfold chat_model.get_groq_chat_model. rewrite Hk.
  apply truthy_str in Hne. rewrite Hne. cbn [negb].
  now destruct logged.
Qed.

(** X19.  The key is validated where the chat model is built.
    [get_groq_chat_model] raises exactly when [GROQ_API_KEY] is [None] or
    the empty string, the exception is [ValueError], and with a key the
    constructor receives the key, the model and temperature of the
    environment module, [streaming=False] and a timeout of thirty
    seconds. *)
Theorem chat_model_requires_key settings logged :
  (forall e, get_groq_chat_model settings logged = Raise e ->
     e = ValueError /\
     (env.GROQ_API_KEY settings = None \/
      env.GROQ_API_KEY settings = Some EmptyString)) /\
  (env.GROQ_API_KEY settings = None \/
   env.GROQ_API_KEY settings = Some EmptyString ->
     get_groq_chat_model settings logged = Raise ValueError) /\
  (forall key, env.GROQ_API_KEY settings = Some key -> key <> EmptyString ->
     exists printed,
       get_groq_chat_model settings logged =
         Ok (mk_chat_groq (env.GROQ_MODEL settings)
               (env.GROQ_TEMPERATURE settings) key false thirty,
             true, printed)).
Proof.
  split; [|split].
  - intros e. unfold chat_model.get_groq_chat_model.
    destruct (env.GROQ_API_KEY settings) as [[|c key]|].
    + intros [= <-]. auto.
    + cbn [truthy String.eqb negb]. destruct logged; discriminate.
    + intros [= <-]. auto.
  - unfold chat_model.get_groq_chat_model. intros [-> | ->]; reflexivity.
  - intros key Hk Hne. eexists.
    now apply get_groq_chat_model_with_key.
Qed.

Lemma logged_calls_print_nothing n settings key :
  env.GROQ_API_KEY settings = Some key -> key <> EmptyString ->
  get_groq_chat_model_times n settings true =
    Ok (repeat (mk_chat_groq (env.GROQ_MODEL settings)
                  (env.GROQ_TEMPERATURE settings) key false thirty) n,
        true, []).
Proof.
  intros Hk Hne. induction n as [|n IH]; [reflexivity|].
  cbn [chat_model.get_groq_chat_model_times repeat].
  rewrite (get_groq_chat_model_with_key _ _ _ Hk Hne). cbn [bind].
  rewrite IH. reflexivity.
Qed.

(** X20.  The configuration is printed once.  Over any number of
    successive calls, starting with the flag unset, the four lines of the
    first call are all that is printed, each call hands the constructor
    the same arguments, and the flag ends set. *)
Theorem config_is_logged_once n settings key :
  env.GROQ_API_KEY settings = Some key -> key <> EmptyString ->
  get_groq_chat_model_times (S n) settings false =
    Ok (repeat (mk_chat_groq (env.GROQ_MODEL settings)
                  (env.GROQ_TEMPERATURE settings) key false thirty) (S n),
        true,
        config_lines (env.GROQ_MODEL settings) key
          (env.GROQ_TEMPERATURE settings)).
Proof.
  intros Hk Hne.
  cbn [chat_model.get_groq_chat_model_times repeat].
  rewrite (get_groq_chat_model_with_key _ _ _ Hk Hne). cbn [bind].
  rewrite (logged_calls_print_nothing n _ _ Hk Hne). cbn [bind].
  now rewrite app_nil_r.
Qed.

End ChatModelProperties.

Section EnvironmentToModel.

Variable environ : string -> option string.
Variable py_float : string -> result Z.
Variable float_str : Z -> string.
Import chat_model.

Lemma import_module_ok text t :
  env.getenv environ "GROQ_TEMPERATURE" (Some "0.0") = Some text ->
  py_float text = Ok t ->
  env.import_module environ py_float =
    Ok (env.mk_settings
          (env.getenv environ "SUPABASE_URL" None)
          (env.getenv environ "GROQ_API_KEY" None)
          (env.getenv environ "GROQ_MODEL"
             (Some "meta-llama/llama-4-scout-17b-16e-instruct"))
          t
          (env.getenv environ "LANGSMITH_API_KEY" None)
          (env.getenv environ "REDIS_URI" None)
          (env.getenv environ "DATABASE_URI" None)).
Proof.
  intros Ht Hf. unfold env.import_module. rewrite Ht, Hf. reflexivity.
Qed.

(** X21.  A missing key passes the import and stops the chat model.
    When [GROQ_API_KEY] is unset or empty and the temperature parses, the
    environment module is imported without an exception, and
    [get_groq_chat_model] on its constants raises [ValueError]. *)
Theorem missing_key_is_caught_by_chat_model text t logged :
  environ "GROQ_API_KEY" = None \/ environ "GROQ_API_KEY" = Some EmptyString ->
  env.getenv environ "GROQ_TEMPERATURE" (Some "0.0") = Some text ->
  py_float text = Ok t ->
  exists settings,
    env.import_module environ py_float = Ok settings /\
    get_groq_chat_model float_str settings logged = Raise ValueError.
Proof.
  intros Hk Ht Hf. eexists. split; [exact (import_module_ok _ _ Ht Hf)|].
  unfold get_groq_chat_model. cbn [env.GROQ_API_KEY]. unfold env.getenv.
  destruct Hk as [-> | ->]; reflexivity.
Qed.

(** X22.  From the environment to the constructor.  With a non-empty
    [GROQ_API_KEY], the constructor receives that key, the value of
    [GROQ_MODEL] or, when it is unset, the default model name, and the
    float parsed from [GROQ_TEMPERATURE] or, when it is unset, from the
    text [0.0]. *)
Theorem environment_reaches_constructor key t logged :
  environ "GROQ_API_KEY" = Some key -> key <> EmptyString ->
  py_float (match environ "GROQ_TEMPERATURE" with
            | Some text => text
            | None => "0.0"
            end) = Ok t ->
  exists settings printed,
    env.import_module environ py_float = Ok settings /\
    get_groq_chat_model float_str settings logged =
      Ok (mk_chat_groq
            (Some (match environ "GROQ_MODEL" with
                   | Some name => name
                   | None => "meta-llama/llama-4-scout-17b-16e-instruct"
                   end))
            t key false thirty,
          true, printed).
Proof.
  intros Hk Hne Hf.
  assert (Ht : env.getenv environ "GROQ_TEMPERATURE" (Some "0.0")
               = Some (match environ "GROQ_TEMPERATURE" with
                       | Some text => text
                       | None => "0.0"
                       end)).
  { unfold env.getenv. now destruct (environ "GROQ_TEMPERATURE"). }
  assert (Hm : env.getenv environ "GROQ_MODEL"
                 (Some "meta-llama/llama-4-scout-17b-16e-instruct")
               = Some (match environ "GROQ_MODEL" with
                       | Some name => name
                       | None => "meta-llama/llama-4-scout-17b-16e-instruct"
                       end)).
  { unfold env.getenv. now destruct (environ "GROQ_MODEL"). }
  eexists _, _. split; [exact (import_module_ok _ _ Ht Hf)|].
  rewrite (get_groq_chat_model_with_key float_str _ key logged).
  - cbn [env.GROQ_MODEL env.GROQ_TEMPERATURE]. rewrite Hm. reflexivity.
  - cbn [env.GROQ_API_KEY]. unfold env.getenv. now rewrite Hk.
  - exact Hne.
Qed.

End EnvironmentToModel.

(** ** Slices and [strip] on ASCII text *)

Section AsciiText.

Import ascii_text.

Lemma code_points_empty_inv s : code_points s = [] -> s = EmptyString.
Proof.
  destruct s as [|c r]; [reflexivity|]. cbn [code_points].
  destruct (code_points r); [discriminate|].
  destruct (starts_with_continuation r); discriminate.
Qed.

Lemma code_points_ascii s :
  is_ascii s = true ->
  code_points s = List.map single (list_ascii_of_string s).
Proof.
  unfold is_ascii. induction s as [|c r IH]; [reflexivity|].
  cbn [list_ascii_of_string forallb List.map code_points].
  intros H. apply andb_prop in H as [_ Hr]. rewrite (IH Hr).
  destruct r as [|d r']; [reflexivity|].
  cbn [list_ascii_of_string List.map].
  cbn [list_ascii_of_string forallb] in Hr. apply andb_prop in Hr as [Hd _].
  unfold starts_with_continuation, is_continuation. cbv zeta.
  apply Nat.ltb_lt in Hd.
  replace (128 <=? nat_of_ascii d)%nat with false; [reflexivity|].
  symmetry. apply Nat.leb_gt. exact Hd.
Qed.

Lemma concat_singles l :
  String.concat "" (List.map single l) = string_of_list_ascii l.
Proof.
  induction l as [|c [|d l] IH]; [reflexivity | reflexivity |].
  cbn [List.map String.concat] in *. cbn [string_of_list_ascii].
  rewrite IH. reflexivity.
Qed.

Lemma lstrip_singles l :
  lstrip_chars (List.map single l) = List.map single (drop_blanks l).
Proof.
  induction l as [|c l IH]; [reflexivity|].
  cbn [List.map lstrip_chars drop_blanks]. unfold is_blank. fold (single c).
  destruct (isspace (single c)); [exact IH | reflexivity].
Qed.

Lemma drop_blanks_blanks n l :
  drop_blanks (list_ascii_of_string (blanks n) ++ l)%list = drop_blanks l.
Proof. induction n as [|n IH]; [reflexivity | exact IH]. Qed.

Lemma drop_blanks_head c l :
  is_blank c = false -> drop_blanks (c :: l) = c :: l.
Proof. intros H. cbn [drop_blanks]. now rewrite H. Qed.

Lemma chars_append s u :
  list_ascii_of_string (s ++ u) =
    (list_ascii_of_string s ++ list_ascii_of_string u)%list.
Proof.
  induction s as [|c s IH]; [reflexivity|].
  cbn [append list_ascii_of_string app]. now rewrite IH.
Qed.

Lemma rev_blanks n :
  rev (list_ascii_of_string (blanks n)) = list_ascii_of_string (blanks n).
Proof.
  induction n as [|n IH]; [reflexivity|].
  cbn [blanks list_ascii_of_string rev]. rewrite IH.
  clear IH. induction n as [|n IH]; [reflexivity|].
  cbn [blanks list_ascii_of_string app]. now rewrite IH.
Qed.

Lemma is_ascii_append s u :
  is_ascii (s ++ u) = is_ascii s && is_ascii u.
Proof. unfold is_ascii. rewrite chars_append. apply forallb_app. Qed.

Lemma is_ascii_blanks n : is_ascii (blanks n) = true.
Proof. induction n as [|n IH]; [reflexivity | exact IH]. Qed.

(** [strip] removes the blanks around ASCII text that has none at its
    ends. *)
Lemma strip_padded n m s :
  is_ascii s = true -> no_blank_ends s = true ->
  strip (blanks n ++ s ++ blanks m) = s.
Proof.
  intros Ha Hends. unfold strip.
  rewrite code_points_ascii
    by (rewrite !is_ascii_append, Ha, !is_ascii_blanks; reflexivity).
  rewrite lstrip_singles, <- map_rev, lstrip_singles, <- map_rev, concat_singles.
  rewrite !chars_append, drop_blanks_blanks.
  unfold no_blank_ends in Hends.
  destruct (list_ascii_of_string s) as [|c rest] eqn:Hs; [discriminate|].
  apply andb_prop in Hends as [Hc Hlast].
  apply negb_true_iff in Hc. apply negb_true_iff in Hlast.
  cbn [app]. rewrite (drop_blanks_head _ _ Hc).
  change (c :: (rest ++ list_ascii_of_string (blanks m))%list)
    with ((c :: rest) ++ list_ascii_of_string (blanks m))%list.
  rewrite rev_app_distr, rev_blanks, drop_blanks_blanks.
  assert (Hrev : drop_blanks (rev (c :: rest)) = rev (c :: rest)).
  { destruct (exists_last (l := c :: rest) ltac:(discriminate)) as (front & z & E).
    rewrite E, rev_unit. apply drop_blanks_head.
    assert (z = List.last rest c) as ->; [|exact Hlast].
    change (List.last rest c) with (List.last (c :: rest) c) at 1 || idtac.
    transitivity (List.last (c :: rest) c).
    - rewrite E. now rewrite last_last.
    - destruct rest; reflexivity. }
  rewrite Hrev, rev_involutive, <- Hs.
  apply string_of_list_ascii_of_string.
Qed.

End AsciiText.

Section AsciiProperties.

Variable json_loads : string -> result pyval.
Variable py_str : pyval -> string.
Variable float_str : Z -> string.
Import ascii_text.
Local Abbreviation get_stream_line := (chat_deployed.get_stream_line json_loads py_str).
Local Abbreviation state := chat_deployed.mk_stream_state.

(** X23.  An event line is read past the blanks around its kind: after
    the prefix [event: ], blanks before and after an ASCII kind are
    stripped, so the padded line selects the same kind as the plain one,
    and it leaves the transcript alone. *)
Theorem padded_event_line_selects_kind n m kind st :
  is_ascii kind = true -> no_blank_ends kind = true ->
  get_stream_line st ("event: " ++ blanks n ++ kind ++ blanks m) =
    Ok (state (chat_deployed.full_content st) (Some kind)).
Proof.
  intros Ha He. unfold chat_deployed.get_stream_line.
  change (("event: " ++ blanks n ++ kind ++ blanks m =? "")%string) with false.
  change (startswith ("event: " ++ blanks n ++ kind ++ blanks m) "event: ")
    with true.
  change (slice_from 7 ("event: " ++ blanks n ++ kind ++ blanks m))
    with (blanks n ++ kind ++ blanks m).
  cbn [negb]. now rewrite (strip_padded n m kind Ha He).
Qed.

Lemma firstn_chars n s :
  string_of_list_ascii (firstn n (list_ascii_of_string s)) = substring 0 n s.
Proof.
  revert s. induction n as [|n IH]; intros [|c s]; try reflexivity.
  cbn [list_ascii_of_string firstn string_of_list_ascii substring].
  now rewrite IH.
Qed.

(** X24.  The configuration log masks the key.  For a non-empty ASCII
    key the four lines printed are the heading, the model, the first four
    characters of the key followed by three dots, and the temperature;
    no character of the key past the fourth is printed. *)
Theorem api_key_is_masked_in_log model key t :
  is_ascii key = true -> key <> EmptyString ->
  chat_model.config_lines float_str model key t =
    [ chat_model.wrench ++ "Groq Model Config:";
      "   Model: " ++ chat_model.format_optional model;
      "   API Key: " ++ substring 0 4 key ++ "...";
      "   Temperature: " ++ float_str t ].
Proof.
  intros Ha Hne. unfold chat_model.config_lines. cbv zeta.
  apply truthy_str in Hne. rewrite Hne.
  unfold chat_model.slice_to.
  rewrite (code_points_ascii _ Ha), firstn_map, concat_singles, firstn_chars.
  reflexivity.
Qed.

End AsciiProperties.

(** ** The further statements at concrete inputs *)

Ltac solve_finish reason :=
  exists [("finish_reason", PStr reason)]; split; reflexivity.

Section MoreInstances.

Import examples more_examples.
Local Abbreviation loads := json_text.loads.
Local Abbreviation no_str := json_text.no_str.
Local Abbreviation process_line := (chat_deployed.process_line loads no_str).
Local Abbreviation get_stream_line := (chat_deployed.get_stream_line loads no_str).
Local Abbreviation get_stream_lines := (chat_deployed.get_stream_lines loads no_str).
Local Abbreviation get_stream := (chat_deployed.get_stream loads no_str).
Local Abbreviation state := chat_deployed.mk_stream_state.

Lemma finish_marker_appends_break_witness :
  get_stream_line (state "Hi" (Some "messages")) finish_line =
    Ok (state ("Hi" ++ nl ++ nl) (Some "messages")).
Proof.
  apply (finish_marker_appends_break loads no_str finish_line finish_chunk "Hi").
  - solve_carries.
  - reflexivity.
  - solve_finish "tool_calls".
Defined.

Lemma name_only_fragment_appends_header_witness :
  get_stream_line (state "" (Some "messages")) name_line =
    Ok (state (nl ++ nl ++ "< TOOL CALL: query_db >" ++ nl ++ nl)
              (Some "messages")).
Proof.
  apply (name_only_fragment_appends_header loads no_str
           name_line name_chunk name_fragment "query_db" "").
  - solve_carries.
  - reflexivity.
  - solve_no_finish.
  - solve_first_fragment.
  - reflexivity.
  - discriminate.
  - reflexivity.
Defined.

Lemma line_without_data_prefix_is_ignored_witness :
  process_line tight_line (Some "messages") = Ok PNone /\
  get_stream_line (state "Hi" (Some "messages")) tight_line
    = Ok (state "Hi" (Some "messages")).
Proof.
  destruct (line_without_data_prefix_is_ignored loads no_str tight_line
              (state "Hi" (Some "messages"))) as [Hp Hl].
  - vm_compute. reflexivity.
  - split; [exact Hp|]. apply Hl. vm_compute. reflexivity.
Defined.

Lemma decode_error_propagates_witness :
  get_stream ["event: messages"; "data: " ++ broken_payload; hi_line]
    = Raise JSONDecodeError.
Proof.
  apply (decode_error_propagates loads no_str broken_payload JSONDecodeError
           "" [hi_line]).
  vm_compute. reflexivity.
Defined.

Lemma payload_shape_errors_witness :
  process_line ("data: " ++ triple_payload) (Some "messages") = Raise ValueError.
Proof.
  destruct (payload_shape_errors loads no_str triple_payload (PList triple))
    as [H _].
  - vm_compute. reflexivity.
  - apply (H triple eq_refl). cbn. discriminate.
Defined.

Lemma missing_field_raises_key_error_witness :
  process_line lean_line (Some "messages") = Raise KeyError.
Proof.
  destruct (missing_field_raises_key_error loads no_str lean_line lean_chunk)
    as [H _].
  - solve_carries.
  - reflexivity.
  - apply H. reflexivity.
Defined.

Lemma non_string_content_witness :
  process_line blocks_line (Some "messages") = Ok blocks /\
  get_stream_line (state "" (Some "messages")) blocks_line = Raise TypeError.
Proof.
  apply (non_string_content loads no_str blocks_line blocks_chunk blocks "").
  - solve_carries.
  - reflexivity.
  - solve_no_finish.
  - reflexivity.
  - reflexivity.
  - intros s. discriminate.
Defined.

Lemma transcript_is_append_only_witness :
  exists suffix,
    chat_deployed.full_content
      (state ("Hi" ++ nl ++ nl ++ "< TOOL CALL: query_db >" ++ nl ++ nl ++ args_text)
             (Some "messages"))
    = "Hi" ++ suffix.
Proof.
  apply (transcript_is_append_only loads no_str [name_line; args_line]
           (state "Hi" (Some "messages"))).
  vm_compute. reflexivity.
Defined.

Lemma other_event_silences_following_lines_witness :
  get_stream_lines (state "Hi" (Some "messages"))
    ["event: metadata"; metadata_line; hi_line] =
    Ok (state "Hi" (Some "metadata")).
Proof.
  apply (other_event_silences_following_lines loads no_str "metadata"
           [metadata_line; hi_line] "Hi" (Some "messages")).
  - vm_compute. reflexivity.
  - repeat constructor.
Defined.

Lemma bare_fragment_repeats_previous_unit_witness :
  graph.stream_iteration no_str
    (Some (PStr (nl ++ nl ++ "< TOOL CALL: query_db >" ++ nl ++ nl)))
    (graph.AIChunk bare_object) =
    ([PStr (nl ++ nl ++ "< TOOL CALL: query_db >" ++ nl ++ nl)],
     Ok (Some (PStr (nl ++ nl ++ "< TOOL CALL: query_db >" ++ nl ++ nl)))).
Proof.
  apply (bare_fragment_repeats_previous_unit no_str
           (Some (PStr (nl ++ nl ++ "< TOOL CALL: query_db >" ++ nl ++ nl)))
           bare_object bare_fragment []); reflexivity.
Defined.

Lemma plain_items_yield_their_content_witness :
  graph.stream_from no_str None
    [graph.AIChunk hi_object; graph.OtherMessage; graph.AIChunk there_object] =
    ([PStr "Hi"; PStr " there"], None).
Proof.
  apply (plain_items_yield_their_content no_str
           [graph.AIChunk hi_object; graph.OtherMessage; graph.AIChunk there_object]
           None).
  repeat constructor.
Defined.

Lemma decoder_agrees_with_stream_witness :
  (exists v binding,
     graph.stream_iteration no_str None (graph.AIChunk hi_object)
       = ([v], Ok binding) /\
     process_line hi_line (Some "messages") = Ok v) \/
  (graph.stream_iteration no_str None (graph.AIChunk hi_object)
     = ([], Raise UnboundLocalError) /\
   process_line hi_line (Some "messages") = Raise UnboundLocalError).
Proof.
  apply (decoder_agrees_with_stream loads no_str hi_line hi_chunk hi_object).
  - solve_carries.
  - reflexivity.
  - reflexivity.
  - reflexivity.
  - reflexivity.
  - reflexivity.
Defined.

Lemma router_outcomes_witness :
  graph.END = graph.END \/ graph.END = graph.tools.
Proof.
  destruct router_outcomes as (_ & _ & H).
  apply (H (graph.mk_state [graph.HumanMessage "hi"; graph.AIMessage "hello" []] "")).
  reflexivity.
Defined.

Lemma run_extends_history_witness :
  exists added,
    [graph.HumanMessage "hi"; graph.AIMessage "hello" []] =
      (graph.messages greeting ++ added)%list.
Proof.
  refine (run_extends_history "You are a helpful assistant." quiet_llm
            idle_tool_node _ 5 graph.START greeting
            [graph.START; graph.chatbot; graph.END]
            (graph.mk_state [graph.HumanMessage "hi"; graph.AIMessage "hello" []] "")
            _).
  - intros s s' H. exists []. injection H as <-. symmetry. apply app_nil_r.
  - reflexivity.
Defined.

Lemma run_ends_without_tool_calls_witness :
  exists content,
    graph.last_item [graph.HumanMessage "hi"; graph.AIMessage "hello" []]
      = Ok (graph.AIMessage content []).
Proof.
  refine (run_ends_without_tool_calls "You are a helpful assistant." quiet_llm
            idle_tool_node 5 graph.START greeting
            [graph.START; graph.chatbot; graph.END]
            (graph.mk_state [graph.HumanMessage "hi"; graph.AIMessage "hello" []] "")
            _ _ _).
  - discriminate.
  - reflexivity.
  - reflexivity.
Defined.

Lemma run_never_ends_while_tools_are_requested_witness :
  graph.run "You are a helpful assistant." eager_llm idle_tool_node
    25 graph.START greeting = Raise GraphRecursionError.
Proof.
  apply (run_never_ends_while_tools_are_requested
           "You are a helpful assistant." eager_llm idle_tool_node).
  - intros ms. now exists "", lookup_call, [].
  - intros s. now exists s.
  - discriminate.
Defined.

Lemma run_with_one_tool_hop_witness :
  graph.run "You are a helpful assistant." careful_llm answering_tool_node
    4 graph.START greeting =
    Ok ([graph.START; graph.chatbot; graph.tools; graph.chatbot; graph.END],
        graph.mk_state
          [graph.HumanMessage "hi"; graph.AIMessage "" [lookup_call];
           graph.ToolMessage "1" "call_1"; graph.AIMessage "one row" []] "").
Proof.
  apply (run_with_one_tool_hop "You are a helpful assistant." careful_llm
           answering_tool_node greeting "" lookup_call []
           (graph.mk_state
              [graph.HumanMessage "hi"; graph.AIMessage "" [lookup_call];
               graph.ToolMessage "1" "call_1"] "")
           "one row" 0); reflexivity.
Defined.

Lemma chat_model_requires_key_witness :
  chat_model.get_groq_chat_model zero_str keyless false = Raise ValueError.
Proof.
  destruct (chat_model_requires_key zero_str keyless false) as (_ & H & _).
  apply H. left. reflexivity.
Defined.

Lemma config_is_logged_once_witness :
  chat_model.get_groq_chat_model_times zero_str 3 keyed false =
    Ok (repeat (chat_model.mk_chat_groq
                  (Some "meta-llama/llama-4-scout-17b-16e-instruct") 0
                  "gsk_abcdef" false chat_model.thirty) 3,
        true,
        chat_model.config_lines zero_str
          (Some "meta-llama/llama-4-scout-17b-16e-instruct") "gsk_abcdef" 0).
Proof.
  apply (config_is_logged_once zero_str 2 keyed "gsk_abcdef").
  - reflexivity.
  - discriminate.
Defined.

Lemma missing_key_is_caught_by_chat_model_witness :
  exists settings,
    env.import_module empty_environ zero_float = Ok settings /\
    chat_model.get_groq_chat_model zero_str settings false = Raise ValueError.
Proof.
  apply (missing_key_is_caught_by_chat_model empty_environ zero_float zero_str
           "0.0" 0%Z false).
  - left. reflexivity.
  - reflexivity.
  - reflexivity.
Defined.

Lemma environment_reaches_constructor_witness :
  exists settings printed,
    env.import_module key_environ zero_float = Ok settings /\
    chat_model.get_groq_chat_model zero_str settings false =
      Ok (chat_model.mk_chat_groq
            (Some "meta-llama/llama-4-scout-17b-16e-instruct")
            0 "gsk_abcdef" false chat_model.thirty,
          true, printed).
Proof.
  apply (environment_reaches_constructor key_environ zero_float zero_str
           "gsk_abcdef" 0%Z false).
  - reflexivity.
  - discriminate.
  - reflexivity.
Defined.

Lemma padded_event_line_selects_kind_witness :
  get_stream_line (state "Hi" None) "event:   messages  " =
    Ok (state "Hi" (Some "messages")).
Proof.
  apply (padded_event_line_selects_kind loads no_str 2 2 "messages"
           (state "Hi" None)); reflexivity.
Defined.

Lemma api_key_is_masked_in_log_witness :
  chat_model.config_lines zero_str
    (Some "meta-llama/llama-4-scout-17b-16e-instruct") "gsk_abcdef" 0 =
    [ chat_model.wrench ++ "Groq Model Config:";
      "   Model: meta-llama/llama-4-scout-17b-16e-instruct";
      "   API Key: gsk_...";
      "   Temperature: 0.0" ].
Proof.
  apply (api_key_is_masked_in_log zero_str
           (Some "meta-llama/llama-4-scout-17b-16e-instruct") "gsk_abcdef" 0%Z).
  - reflexivity.
  - discriminate.
Defined.

End MoreInstances.
